(** * Ind-test-api: Kite authentication and yfinance download workflow

    A shallow embedding of [main.py] and the properties of its specification.

    The program is a sequence of calls to the outside world (the credential
    file, the storage directory, the broker SDK, the market-data provider)
    wrapped in [try]/[except] blocks.  It is embedded as an exception-and-state
    monad over an explicit [State]: the fields of the [AuthenticationManager]
    object, the two places of the file system the program touches, the trace of
    network calls and file writes, and the lines printed.  Every external call
    may take its error branch; which one does is decided by an environment
    [Env] the definitions are parameterised by.

    Python's [float] is kept abstract (class [PyFloat]): the program only
    prints, parses and compares floats, and the text codec belongs to the
    interpreter, not to the program.  The [csv] module is trusted to carry
    rows of text fields: a CSV file is the list of rows [csv.reader] yields
    from it when no newline is translated, which is how [save_data_to_csv]
    writes it.

    A [str] is the string of the bytes of its UTF-8 encoding.  The files are
    those of a POSIX system: text written is stored as it is, and text read
    through [open(path, 'r')] has its carriage returns translated
    ([universal_newlines]). *)

From Stdlib Require Import ZArith List Ascii String Lia Bool.
From stdpp Require Import base option list strings gmap sets sorting.

Local Open Scope string_scope.
Local Open Scope Z_scope.

(** ** Python values, exceptions and outcomes *)

(** The values an SDK response can hold under a key, and the values of the
    [access_token] attribute. *)
Inductive pyval :=
  | PyNone
  | PyStr (s : string)
  | PyInt (z : Z).

Inductive exn :=
  | OSError
  | KeyError
  | TypeError
  | ValueError
  | IndexError
  | OverflowError
  | SDKError.

Inductive outcome (A : Type) :=
  | Ret (a : A)
  | Raise (e : exn).
Arguments Ret {A} a.
Arguments Raise {A} e.

Definition raised {A} (o : outcome A) : bool :=
  match o with Ret _ => false | Raise _ => true end.

(** ** Text helpers: [str.strip], [str.endswith], [str.replace], [str(int)], [int(str)] *)

(** The white space of [str.isspace] and [str.strip]: the characters U+0009
    to U+000D, U+001C to U+0020, U+0085, U+00A0, U+1680, U+2000 to U+200A,
    U+2028, U+2029, U+202F, U+205F and U+3000.  [is_space] are those of one
    byte, [is_space2] and [is_space3] those of two and of three bytes. *)
Definition is_space (c : ascii) : bool :=
  let n := nat_of_ascii c in
  ((9 <=? n)%nat && (n <=? 13)%nat) || ((28 <=? n)%nat && (n <=? 32)%nat).

Definition is_space2 (a b : ascii) : bool :=
  let x := nat_of_ascii a in
  let y := nat_of_ascii b in
  (x =? 194)%nat && ((y =? 133)%nat || (y =? 160)%nat).

Definition is_space3 (a b c : ascii) : bool :=
  let x := nat_of_ascii a in
  let y := nat_of_ascii b in
  let z := nat_of_ascii c in
  ((x =? 225)%nat && (y =? 154)%nat && (z =? 128)%nat) ||
  ((x =? 226)%nat && (y =? 128)%nat &&
   (((128 <=? z)%nat && (z <=? 138)%nat) || (z =? 168)%nat || (z =? 169)%nat ||
    (z =? 175)%nat)) ||
  ((x =? 226)%nat && (y =? 129)%nat && (z =? 159)%nat) ||
  ((x =? 227)%nat && (y =? 128)%nat && (z =? 128)%nat).

(** [t] is one white-space character. *)
Definition is_whitespace (t : string) : bool :=
  match t with
  | String a EmptyString => is_space a
  | String a (String b EmptyString) => is_space2 a b
  | String a (String b (String c EmptyString)) => is_space3 a b c
  | _ => false
  end.

(** A byte of a text without white space and without any character beyond
    ASCII. *)
Definition is_plain (c : ascii) : bool :=
  negb (is_space c) && (nat_of_ascii c <? 128)%nat.

(** [s.lstrip()] *)
Fixpoint lstrip (s : string) : string :=
  match s with
  | String a r =>
      if is_space a then lstrip r
      else match r with
           | String b r2 =>
               if is_space2 a b then lstrip r2
               else match r2 with
                    | String c r3 => if is_space3 a b c then lstrip r3 else s
                    | EmptyString => s
                    end
           | EmptyString => s
           end
  | EmptyString => EmptyString
  end.

(** [s.rstrip()], from the end of [s]: the trailing bytes of a character of
    several bytes are kept until its first byte is reached, and the character
    goes when it is white space and only white space follows it. *)
Fixpoint rstrip (s : string) : string :=
  match s with
  | String a r =>
      let t := String a (rstrip r) in
      if is_whitespace t then EmptyString else t
  | EmptyString => EmptyString
  end.

(** What [open(path, 'r')] makes of the text of a file: a carriage return
    followed by a line feed, and a carriage return alone, become a line
    feed. *)
Fixpoint universal_newlines (s : string) : string :=
  match s with
  | String c r =>
      if Ascii.eqb c "013" then
        String "010" match r with
                     | String c' r' =>
                         if Ascii.eqb c' "010" then universal_newlines r'
                         else universal_newlines r
                     | EmptyString => EmptyString
                     end
      else String c (universal_newlines r)
  | EmptyString => EmptyString
  end.

(** Every character of [s] satisfies [p]. *)
Fixpoint string_forallb (p : ascii -> bool) (s : string) : bool :=
  match s with
  | EmptyString => true
  | String c r => p c && string_forallb p r
  end.

(** [s.strip()] *)
Definition py_strip (s : string) : string := rstrip (lstrip s).

(** [s.endswith('.csv')] *)
Fixpoint endswith_csv (s : string) : bool :=
  match s with
  | EmptyString => false
  | String c r => String.eqb s ".csv" || endswith_csv r
  end.

(** [s.replace('.csv', '')]: every occurrence, leftmost first, is removed. *)
Fixpoint replace_csv (s : string) : string :=
  match s with
  | String "." (String "c" (String "s" (String "v" r))) => replace_csv r
  | String c r => String c (replace_csv r)
  | EmptyString => EmptyString
  end.

Definition digit_char (d : Z) : ascii := ascii_of_nat (48 + Z.to_nat d).

Definition is_digit (c : ascii) : bool :=
  let n := nat_of_ascii c in (48 <=? n)%nat && (n <=? 57)%nat.

Definition digit_val (c : ascii) : Z := Z.of_nat (nat_of_ascii c) - 48.

Fixpoint digits_aux (fuel : nat) (n : Z) (acc : string) : string :=
  match fuel with
  | O => acc
  | S fuel' =>
      let acc' := String (digit_char (n mod 10)) acc in
      if n <? 10 then acc' else digits_aux fuel' (n / 10) acc'
  end.

(** Decimal digits of a non-negative integer. *)
Definition digits (n : Z) : string :=
  digits_aux (S (Z.to_nat (Z.log2 n))) n EmptyString.

(** [str(z)] for a Python [int]. *)
Definition int_str (z : Z) : string :=
  if z <? 0 then String "-" (digits (- z)) else digits z.

(** The digit part of an integer literal: digits, single underscores only
    between digits. *)
Fixpoint int_digits (s : string) (acc : Z) (after_digit : bool) : option Z :=
  match s with
  | EmptyString => if after_digit then Some acc else None
  | String c r =>
      if is_digit c then int_digits r (10 * acc + digit_val c) true
      else if Ascii.eqb c "_" then
        if after_digit then int_digits r acc false else None
      else None
  end.

(** [int(s)] for a [str]: [None] stands for [ValueError]. *)
Definition int_of_str (s : string) : option Z :=
  match py_strip s with
  | String c r =>
      if Ascii.eqb c "-" then Z.opp <$> int_digits r 0 false
      else if Ascii.eqb c "+" then int_digits r 0 false
      else int_digits (String c r) 0 false
  | EmptyString => None
  end.

(** ** Floats *)

(** What the program needs of Python's [float]: its text ([str], which
    [csv.writer] applies to a non-string field), [float(s)] on text with
    [None] for [ValueError], the order used by [min] and [max], and the
    predicates of the Candle invariant. *)
Class PyFloat := {
  float : Type;
  float_str : float -> string;
  float_of_str : string -> option float;
  float_ltb : float -> float -> bool;
  float_finite : float -> bool;
  float_nonneg : float -> bool
}.

(** What CPython guarantees of the text of a float: it holds no carriage
    return, and [float(repr(x)) == x] for every finite float, the text being
    the shortest that reads back. *)
Class PyFloatRepr (F : PyFloat) := {
  float_str_plain : forall x : float, universal_newlines (float_str x) = float_str x;
  float_of_str_str : forall x : float, float_finite x = true ->
                                       float_of_str (float_str x) = Some x
}.

(** ** Configuration *)

(** The class-level constants of [Config]. *)
Record Config := {
  API_KEY : string;
  API_SECRET : string;
  STOCKS : list string;
  TICKER_MAP : gmap string string;
  DATA_DIR : string;
  TOKEN_FILE : string
}.

(** [Config] as [main.py] declares it; the key and the secret come from the
    process environment. *)
Definition Config_source (key secret : string) : Config :=
  {| API_KEY := key;
     API_SECRET := secret;
     STOCKS := ["RELIANCE"; "TCS"; "INFY"; "HDFCBANK"; "ICICIBANK";
                "HINDUNILVR"; "ITC"; "SBIN"; "BHARTIARTL"; "LT"];
     TICKER_MAP := list_to_map
       [("RELIANCE", "RELIANCE.NS"); ("TCS", "TCS.NS"); ("INFY", "INFY.NS");
        ("HDFCBANK", "HDFCBANK.NS"); ("ICICIBANK", "ICICIBANK.NS");
        ("HINDUNILVR", "HINDUNILVR.NS"); ("ITC", "ITC.NS"); ("SBIN", "SBIN.NS");
        ("BHARTIARTL", "BHARTIARTL.NS"); ("LT", "LT.NS")];
     DATA_DIR := "historical_data";
     TOKEN_FILE := "access_token.txt" |}.

(** [os.path.join(Config.DATA_DIR, name)] *)
Definition path_join (dir name : string) : string := dir +:+ "/" +:+ name.

(** [f"{symbol}.csv"] *)
Definition csv_name (symbol : string) : string := symbol +:+ ".csv".

(** ** The outside world *)

(** A CSV file, as the rows of text fields [csv.reader] yields from it when
    it is opened with [newline=''], the way it is written; a blank line is
    the row [[]]. *)
Abbreviation csv_file := (list (list string)).

(** The rows [csv.reader] yields from the file opened with [open(path, 'r')]:
    the newlines inside the fields are translated. *)
Definition text_mode (tbl : list (list string)) : list (list string) :=
  (fun row : list string => universal_newlines <$> row) <$> tbl.

(** The two places of the file system the program reads and writes: the
    credential file ([None] when absent) and the storage directory ([None]
    when absent, else its entries by file name). *)
Record FileSystem := {
  token_file : option string;
  data_dir : option (gmap string csv_file)
}.

(** The SDK client: only the token installed on it is observable. *)
Record KiteConnect := {
  api_key : string;
  installed_token : pyval
}.

(** The attributes of an [AuthenticationManager] object. *)
Record AuthenticationManager := {
  kite : KiteConnect;
  access_token : pyval;
  authenticated : bool
}.

(** Network calls, file-system writes and sleeps, recorded when issued. *)
Inductive event :=
  | EvGenerateSession (request_token api_secret : string)
  | EvDownload (ticker : string) (days : Z)
  | EvSleep
  | EvMakedirs (path : string)
  | EvOpenWrite (path : string)
  | EvWrite (path : string).

(** The external calls that can take their error branch. *)
Inductive call :=
  | CallOpenRead (path : string)
  | CallRead (path : string)
  | CallOpenWrite (path : string)
  | CallWrite (path : string) (n : nat)
  | CallSetAccessToken
  | CallLoginUrl
  | CallMakedirs (path : string)
  | CallListdir (path : string)
  | CallGetsize (path : string).

(** One row of the provider's table: the index (its text) and the cells.  A
    price cell is [None] when [float(row[...])] raises on it; [Volume] is
    [None] when the column is absent and [Some None] when [int(...)] raises on
    the cell. *)
Record yrow `{PyFloat} := {
  idx : string;
  Open : option float;
  High : option float;
  Low : option float;
  Close : option float;
  Volume : option (option Z)
}.

(** The first and the last day [datetime] can hold, 0001-01-01 and
    9999-12-31, as proleptic Gregorian ordinals, and the day before the epoch
    of the system clock, 1969-12-31. *)
Definition MINYEAR_ordinal : Z := 1.
Definition MAXYEAR_ordinal : Z := 3652059.
Definition epoch_eve_ordinal : Z := 719162.

(** The environment decides the result of every external call: [fault c] is
    the exception call [c] raises, if any; [generate_session] and
    [yf_download] are the two network calls, the latter for a ticker and the
    window of [days] days that ends today; [login_url] is what the SDK builds
    from the API key.  [today] is the ordinal of the local date
    [datetime.now()] reads: the clock counts from the epoch, and the date is
    one [datetime] can hold.  [left_on_disk path rows] is what the file at
    [path] holds after an I/O error, [rows] having been handed to its buffer:
    that is for the operating system to say. *)
Record Env `{PyFloat} := {
  fault : call -> option exn;
  generate_session : string -> string -> outcome (gmap string pyval);
  yf_download : string -> Z -> outcome (list yrow);
  login_url : string -> string;
  today : Z;
  today_valid : Is_true ((epoch_eve_ordinal <=? today) && (today <=? MAXYEAR_ordinal));
  left_on_disk : string -> csv_file -> csv_file
}.

(** [timedelta(days=days)]: an [OverflowError] beyond 999999999 days. *)
Definition timedelta (days : Z) : outcome Z :=
  if Z.abs days <=? 999999999 then Ret days else Raise OverflowError.

(** [date - delta]: an [OverflowError] when the result is a day [datetime]
    cannot hold. *)
Definition date_minus (date delta : Z) : outcome Z :=
  if (MINYEAR_ordinal <=? date - delta) && (date - delta <=? MAXYEAR_ordinal)
  then Ret (date - delta) else Raise OverflowError.

(** One candle: a dict with keys date, open, high, low, close, volume.  A
    date is the text of the provider's timestamp when fetched, and a text
    field or [None] when read back from a file. *)
Record candle `{PyFloat} := {
  c_date : pyval;
  c_open : float;
  c_high : float;
  c_low : float;
  c_close : float;
  c_volume : Z
}.

(** What the program prints, one constructor per informative line. *)
Inductive message `{PyFloat} :=
  | MsgLoadedToken
  | MsgCouldNotLoadToken (e : exn)
  | MsgLoginUrl (url : string)
  | MsgExchanging
  | MsgAuthSuccessful (user_name : pyval)
  | MsgAuthFailed (e : exn)
  | MsgFetching (symbol ticker : string)
  | MsgNoDataFound
  | MsgCandles (n : nat)
  | MsgFetchError (e : exn)
  | MsgNoDataToSave (symbol : string)
  | MsgSaved (symbol : string) (n : nat)
  | MsgSaveError (symbol : string) (e : exn)
  | MsgCreatedDir
  | MsgFileNotFound (path : string)
  | MsgLoadError (symbol : string) (e : exn)
  | MsgStatusHeader
  | MsgNoDirectory
  | MsgFoundCsv (n : nat)
  | MsgCsvLine (name : string) (rows : Z)
  | MsgMissing (symbols : list string)
  | MsgAllHaveData (n : nat)
  | MsgAuthFlow
  | MsgNotAuthenticated
  | MsgFetchHeader (n : nat) (days : Z)
  | MsgSavedCount (success_count : nat) (total : nat)
  | MsgMustAuthenticate
  | MsgAnalysisHeader
  | MsgAnalysis (symbol : string) (records : nat) (lo hi last : float).

(** The whole state a run threads through. *)
Record State `{PyFloat} := {
  self : AuthenticationManager;
  fs : FileSystem;
  trace : list event;
  stdout : list message
}.

(** ** The monad: state with exceptions *)

Section Monad.
Context `{PyFloat}.

Definition M (A : Type) : Type := State -> outcome A * State.

Definition ret {A} (a : A) : M A := fun s => (Ret a, s).

Definition raise {A} (e : exn) : M A := fun s => (Raise e, s).

Definition bind {A B} (m : M A) (k : A -> M B) : M B :=
  fun s => match m s with
           | (Ret a, s') => k a s'
           | (Raise e, s') => (Raise e, s')
           end.

(** [try: m  except Exception as e: h e] *)
Definition try_except {A} (m : M A) (h : exn -> M A) : M A :=
  fun s => match m s with
           | (Ret a, s') => (Ret a, s')
           | (Raise e, s') => h e s'
           end.

Definition get_self : M AuthenticationManager := fun s => (Ret (self s), s).

Definition set_self (a : AuthenticationManager) : M unit :=
  fun s => (Ret tt, {| self := a; fs := fs s; trace := trace s; stdout := stdout s |}).

Definition get_fs : M FileSystem := fun s => (Ret (fs s), s).

Definition set_fs (f : FileSystem) : M unit :=
  fun s => (Ret tt, {| self := self s; fs := f; trace := trace s; stdout := stdout s |}).

Definition emit (ev : event) : M unit :=
  fun s => (Ret tt, {| self := self s; fs := fs s;
                       trace := (trace s ++ [ev])%list; stdout := stdout s |}).

Definition print (m : message) : M unit :=
  fun s => (Ret tt, {| self := self s; fs := fs s;
                       trace := trace s; stdout := (stdout s ++ [m])%list |}).

(** Raise what an [option]-valued coercion or lookup failed with. *)
Definition or_raise {A} (e : exn) (o : option A) : M A :=
  match o with Some a => ret a | None => raise e end.

(** Lift the outcome of a network call. *)
Definition lift {A} (o : outcome A) : M A := fun s => (o, s).
End Monad.

Declare Scope py_scope.
Delimit Scope py_scope with py.
Notation "x <- m ;; k" := (bind m (fun x => k))
  (at level 100, m at next level, right associativity) : py_scope.
Notation "m ;; k" := (bind m (fun _ => k))
  (at level 100, right associativity) : py_scope.
Local Open Scope py_scope.

(** An external call site: raises what the environment says it raises. *)
Definition attempt `{PyFloat} (env : Env) (c : call) : M unit :=
  match fault env c with
  | Some e => raise e
  | None => ret tt
  end.

(** ** AuthenticationManager *)

Module AuthenticationManager.
Section Methods.
Context `{PyFloat} (cfg : Config) (env : Env).

(** [self.access_token = v] *)
Definition set_access_token_attr (v : pyval) : M unit :=
  a <- get_self ;;
  set_self {| kite := kite a; access_token := v; authenticated := authenticated a |}.

(** [self.authenticated = b] *)
Definition set_authenticated (b : bool) : M unit :=
  a <- get_self ;;
  set_self {| kite := kite a; access_token := access_token a; authenticated := b |}.

(** [self.kite.set_access_token(v)], a call into the SDK. *)
Definition kite_set_access_token (v : pyval) : M unit :=
  attempt env CallSetAccessToken ;;
  a <- get_self ;;
  set_self {| kite := {| api_key := api_key (kite a); installed_token := v |};
              access_token := access_token a;
              authenticated := authenticated a |}.

(** [open(Config.TOKEN_FILE, 'w')]: creates or truncates the file. *)
Definition open_token_file_w : M unit :=
  emit (EvOpenWrite (TOKEN_FILE cfg)) ;;
  attempt env (CallOpenWrite (TOKEN_FILE cfg)) ;;
  f <- get_fs ;;
  set_fs {| token_file := Some ""; data_dir := data_dir f |}.

(** [f.write(v)]: a [TypeError] unless [v] is a [str]. *)
Definition write_token_file (v : pyval) : M unit :=
  match v with
  | PyStr text =>
      emit (EvWrite (TOKEN_FILE cfg)) ;;
      attempt env (CallWrite (TOKEN_FILE cfg) 0) ;;
      f <- get_fs ;;
      set_fs {| token_file := Some text; data_dir := data_dir f |}
  | _ => raise TypeError
  end.

Definition load_existing_token : M bool :=
  f <- get_fs ;;
  match token_file f with
  | Some content =>
      try_except
        (attempt env (CallOpenRead (TOKEN_FILE cfg)) ;;
         attempt env (CallRead (TOKEN_FILE cfg)) ;;
         set_access_token_attr (PyStr (py_strip (universal_newlines content))) ;;
         kite_set_access_token (PyStr (py_strip (universal_newlines content))) ;;
         set_authenticated true ;;
         print MsgLoadedToken ;;
         ret true)
        (fun e => print (MsgCouldNotLoadToken e) ;; ret false)
  | None => ret false
  end.

Definition __init__ : M unit :=
  set_self {| kite := {| api_key := API_KEY cfg; installed_token := PyNone |};
              access_token := PyNone;
              authenticated := false |} ;;
  load_existing_token ;;
  ret tt.

Definition get_login_url : M string :=
  attempt env CallLoginUrl ;;
  a <- get_self ;;
  print (MsgLoginUrl (login_url env (api_key (kite a)))) ;;
  ret (login_url env (api_key (kite a))).

Definition authenticate_with_token (request_token : string) : M bool :=
  try_except
    (print MsgExchanging ;;
     emit (EvGenerateSession request_token (API_SECRET cfg)) ;;
     data <- lift (generate_session env request_token (API_SECRET cfg)) ;;
     tok <- or_raise KeyError (data !! "access_token") ;;
     set_access_token_attr tok ;;
     kite_set_access_token tok ;;
     set_authenticated true ;;
     open_token_file_w ;;
     a <- get_self ;;
     write_token_file (access_token a) ;;
     print (MsgAuthSuccessful (default (PyStr "User") (data !! "user_name"))) ;;
     ret true)
    (fun e =>
       print (MsgAuthFailed e) ;;
       set_authenticated false ;;
       ret false).

Definition is_authenticated : M bool :=
  a <- get_self ;;
  ret (authenticated a).
End Methods.
End AuthenticationManager.

(** ** MarketDataFetcher *)

(** The text [csv.writer] gives a non-float field: [None] is the empty
    field, a string is itself, anything else its [str]. *)
Definition csv_field (v : pyval) : string :=
  match v with
  | PyNone => ""
  | PyStr s => s
  | PyInt z => int_str z
  end.

Definition fieldnames : list string :=
  ["date"; "open"; "high"; "low"; "close"; "volume"].

(** The row [writer.writerow] writes for a candle, in field order. *)
Definition candle_row `{PyFloat} (c : candle) : list string :=
  [csv_field (c_date c); float_str (c_open c); float_str (c_high c);
   float_str (c_low c); float_str (c_close c); int_str (c_volume c)].

(** [if data:] on a value that is [None] or a list. *)
Definition truthy {A} (data : option (list A)) : bool :=
  match data with
  | Some (_ :: _) => true
  | _ => false
  end.

Module MarketDataFetcher.
Section Methods.
Context `{PyFloat} (cfg : Config) (env : Env).

(** The dict built from one row of the provider's table. *)
Definition convert_row (r : yrow) : M candle :=
  o <- or_raise TypeError (Open r) ;;
  h <- or_raise TypeError (High r) ;;
  l <- or_raise TypeError (Low r) ;;
  c <- or_raise TypeError (Close r) ;;
  v <- match Volume r with
       | Some cell => or_raise ValueError cell
       | None => ret 0
       end ;;
  ret {| c_date := PyStr (idx r); c_open := o; c_high := h; c_low := l;
         c_close := c; c_volume := v |}.

(** [for idx, row in data.iterrows(): result.append(...)] *)
Fixpoint convert_rows (rows : list yrow) (result : list candle) : M (list candle) :=
  match rows with
  | [] => ret result
  | r :: rest => c <- convert_row r ;; convert_rows rest (result ++ [c])%list
  end.

(** The window is computed inside the [try], before the announcement and the
    request: [to_date - timedelta(days=days)] can overflow.  The provider is
    asked for the ticker and that window, which [days] and the clock
    determine. *)
Definition fetch_historical_data (symbol : string) (days : Z)
  : M (option (list candle)) :=
  try_except
    (let ticker := default (symbol +:+ ".NS") (TICKER_MAP cfg !! symbol) in
     let to_date := today env in
     delta <- lift (timedelta days) ;;
     from_date <- lift (date_minus to_date delta) ;;
     print (MsgFetching symbol ticker) ;;
     emit (EvDownload ticker days) ;;
     data <- lift (yf_download env ticker days) ;;
     match data with
     | [] => print MsgNoDataFound ;; ret None
     | _ =>
         print (MsgCandles (length data)) ;;
         result <- convert_rows data [] ;;
         emit EvSleep ;;
         ret (Some result)
     end)
    (fun e => print (MsgFetchError e) ;; ret None).

(** [open(filepath, 'w', newline='')] inside the storage directory. *)
Definition open_csv_w (name : string) : M unit :=
  emit (EvOpenWrite (path_join (DATA_DIR cfg) name)) ;;
  attempt env (CallOpenWrite (path_join (DATA_DIR cfg) name)) ;;
  f <- get_fs ;;
  match data_dir f with
  | Some d => set_fs {| token_file := token_file f;
                        data_dir := Some (<[name := []]> d) |}
  | None => raise OSError
  end.

(** [writer.writeheader()] and [writer.writerow(...)]: the [n]-th write
    appends one row to the file.  The file is buffered and is closed when the
    [with] block is left: the failure of a write stands for what the block
    raises at that write, be it the write, a flush or the close.  After an
    [OSError] the file holds what the operating system left of the rows
    handed over; after any other exception (the text of a field cannot be
    produced) the rows handed over before are flushed by the close. *)
Definition write_row (name : string) (n : nat) (row : list string) : M unit :=
  emit (EvWrite (path_join (DATA_DIR cfg) name)) ;;
  match fault env (CallWrite (path_join (DATA_DIR cfg) name) n) with
  | Some OSError =>
      f <- get_fs ;;
      set_fs {| token_file := token_file f;
                data_dir := alter (left_on_disk env (path_join (DATA_DIR cfg) name)) name
                              <$> data_dir f |} ;;
      raise OSError
  | Some e => raise e
  | None =>
      f <- get_fs ;;
      set_fs {| token_file := token_file f;
                data_dir := alter (fun rows => (rows ++ [row])%list) name <$> data_dir f |}
  end.

(** [for candle in data: writer.writerow({...})] *)
Fixpoint write_rows (name : string) (n : nat) (data : list candle) : M unit :=
  match data with
  | [] => ret tt
  | c :: rest => write_row name n (candle_row c) ;; write_rows name (S n) rest
  end.

Definition save_data_to_csv (symbol : string) (data : option (list candle))
  : M bool :=
  if negb (truthy data) then
    print (MsgNoDataToSave symbol) ;; ret false
  else
    try_except
      (open_csv_w (csv_name symbol) ;;
       write_row (csv_name symbol) 0 fieldnames ;;
       write_rows (csv_name symbol) 1 (default [] data) ;;
       print (MsgSaved symbol (length (default [] data))) ;;
       ret true)
      (fun e => print (MsgSaveError symbol e) ;; ret false).
End Methods.
End MarketDataFetcher.

(** ** DataStorageManager *)

(** [dict(zip(fieldnames, row))] of [csv.DictReader], with the names beyond
    the row's length bound to [restval], which is [None].  Fields beyond the
    names go under the key [None], which no string key reaches. *)
Fixpoint zip_rest (names row : list string) : list (string * option string) :=
  match names, row with
  | [], _ => []
  | n :: ns, [] => (n, None) :: zip_rest ns []
  | n :: ns, v :: vs => (n, Some v) :: zip_rest ns vs
  end.

(** A later binding of a name overrides an earlier one. *)
Definition dict_of_row (names row : list string) : gmap string (option string) :=
  foldl (fun d kv => <[kv.1 := kv.2]> d) ∅ (zip_rest names row).

(** [csv.DictReader(f)]: the first row gives the field names, blank rows
    after it are skipped, every other row becomes a dict. *)
Definition DictReader (tbl : csv_file) : list (gmap string (option string)) :=
  match tbl with
  | [] => []
  | names :: rows => dict_of_row names <$> filter (fun r => r ≠ []) rows
  end.

(** [sorted(names)] on strings. *)
Definition sorted (names : list string) : list string :=
  merge_sort (fun a b : string => String.leb a b) names.

Module DataStorageManager.
Section Methods.
Context `{PyFloat} (cfg : Config) (env : Env).

Definition setup_directories : M bool :=
  f <- get_fs ;;
  match data_dir f with
  | None =>
      emit (EvMakedirs (DATA_DIR cfg)) ;;
      attempt env (CallMakedirs (DATA_DIR cfg)) ;;
      set_fs {| token_file := token_file f; data_dir := Some ∅ |} ;;
      print MsgCreatedDir ;;
      ret true
  | Some _ => ret true
  end.

(** [row[key]] *)
Definition row_get (row : gmap string (option string)) (key : string)
  : M (option string) :=
  or_raise KeyError (row !! key).

(** [float(row[key])]: a [TypeError] on [None], a [ValueError] on text
    that is no float. *)
Definition row_float (row : gmap string (option string)) (key : string) : M float :=
  v <- row_get row key ;;
  s <- or_raise TypeError v ;;
  or_raise ValueError (float_of_str s).

(** [int(row[key])] *)
Definition row_int (row : gmap string (option string)) (key : string) : M Z :=
  v <- row_get row key ;;
  s <- or_raise TypeError v ;;
  or_raise ValueError (int_of_str s).

(** The dict appended for one row. *)
Definition parse_row (row : gmap string (option string)) : M candle :=
  d <- row_get row "date" ;;
  o <- row_float row "open" ;;
  h <- row_float row "high" ;;
  l <- row_float row "low" ;;
  c <- row_float row "close" ;;
  v <- row_int row "volume" ;;
  ret {| c_date := from_option PyStr PyNone d; c_open := o; c_high := h;
         c_low := l; c_close := c; c_volume := v |}.

(** [for row in reader: data.append({...})] *)
Fixpoint parse_rows (rows : list (gmap string (option string)))
                    (data : list candle) : M (list candle) :=
  match rows with
  | [] => ret data
  | r :: rest => c <- parse_row r ;; parse_rows rest (data ++ [c])%list
  end.

Definition load_csv (symbol : string) : M (option (list candle)) :=
  f <- get_fs ;;
  match data_dir f ≫= (fun d => d !! csv_name symbol) with
  | None =>
      print (MsgFileNotFound (path_join (DATA_DIR cfg) (csv_name symbol))) ;;
      ret None
  | Some tbl =>
      try_except
        (attempt env (CallOpenRead (path_join (DATA_DIR cfg) (csv_name symbol))) ;;
         attempt env (CallRead (path_join (DATA_DIR cfg) (csv_name symbol))) ;;
         data <- parse_rows (DictReader (text_mode tbl)) [] ;;
         ret (Some data))
        (fun e => print (MsgLoadError symbol e) ;; ret None)
  end.

(** The body of [for f in sorted(csv_files)]: size, line count, one line
    printed.  The row count is the number of lines minus the header. *)
Fixpoint report_files (d : gmap string csv_file) (names : list string) : M unit :=
  match names with
  | [] => ret tt
  | name :: rest =>
      attempt env (CallGetsize (path_join (DATA_DIR cfg) name)) ;;
      attempt env (CallOpenRead (path_join (DATA_DIR cfg) name)) ;;
      attempt env (CallRead (path_join (DATA_DIR cfg) name)) ;;
      print (MsgCsvLine name (Z.of_nat (length (default [] (d !! name))) - 1)) ;;
      report_files d rest
  end.

(** [set(Config.STOCKS) - set(s.replace('.csv', '') for s in csv_files)] *)
Definition missing (csv_files : list string) : gset string :=
  list_to_set (STOCKS cfg) ∖ list_to_set (replace_csv <$> csv_files).

Definition get_status_report : M unit :=
  print MsgStatusHeader ;;
  f <- get_fs ;;
  match data_dir f with
  | None => print MsgNoDirectory ;; ret tt
  | Some d =>
      attempt env (CallListdir (DATA_DIR cfg)) ;;
      let files := (map_to_list d).*1 in
      let csv_files := filter (fun f => endswith_csv f = true) files in
      print (MsgFoundCsv (length csv_files)) ;;
      report_files d (sorted csv_files) ;;
      if decide (missing csv_files ≠ ∅) then
        print (MsgMissing (sorted (elements (missing csv_files))))
      else
        print (MsgAllHaveData (length (STOCKS cfg)))
  end.
End Methods.
End DataStorageManager.

(** ** ZerodhaBacktestingWorkflow *)

Module ZerodhaBacktestingWorkflow.
Section Methods.
Context `{PyFloat} (cfg : Config) (env : Env).

(** The storage manager and the fetcher hold no state of their own. *)
Definition __init__ : M unit := AuthenticationManager.__init__ cfg env.

(** [if request_token:] holds for a non-empty string only. *)
Definition authenticate (request_token : option string) : M bool :=
  match request_token with
  | Some (String c r) =>
      AuthenticationManager.authenticate_with_token cfg env (String c r)
  | _ =>
      print MsgAuthFlow ;;
      AuthenticationManager.get_login_url env ;;
      ret false
  end.

(** The loop over [Config.STOCKS], carrying [success_count]. *)
Fixpoint fetch_loop (days : Z) (symbols : list string) (success_count : nat)
  : M nat :=
  match symbols with
  | [] => ret success_count
  | symbol :: rest =>
      data <- MarketDataFetcher.fetch_historical_data cfg env symbol days ;;
      saved <- MarketDataFetcher.save_data_to_csv cfg env symbol data ;;
      fetch_loop days rest (if saved then S success_count else success_count)
  end.

Definition fetch_and_save_data (days : Z) : M bool :=
  auth <- AuthenticationManager.is_authenticated ;;
  if negb auth then
    print MsgNotAuthenticated ;; ret false
  else
    DataStorageManager.setup_directories cfg env ;;
    print (MsgFetchHeader (length (STOCKS cfg)) days) ;;
    success_count <- fetch_loop days (STOCKS cfg) 0 ;;
    print (MsgSavedCount success_count (length (STOCKS cfg))) ;;
    ret true.

Definition get_status_report : M unit :=
  DataStorageManager.get_status_report cfg env.

Definition load_data (symbol : string) : M (option (list candle)) :=
  DataStorageManager.load_csv cfg env symbol.
End Methods.
End ZerodhaBacktestingWorkflow.

(** ** Quick start functions *)

Section QuickStart.
Context `{PyFloat} (cfg : Config) (env : Env).

(** [min(xs)]: a [ValueError] on the empty list, else the first smallest. *)
Definition py_min (xs : list float) : M float :=
  match xs with
  | [] => raise ValueError
  | x :: rest => ret (foldl (fun cur y => if float_ltb y cur then y else cur) x rest)
  end.

(** [max(xs)] *)
Definition py_max (xs : list float) : M float :=
  match xs with
  | [] => raise ValueError
  | x :: rest => ret (foldl (fun cur y => if float_ltb cur y then y else cur) x rest)
  end.

(** [xs[-1]]: an [IndexError] on the empty list. *)
Definition py_last (xs : list float) : M float :=
  or_raise IndexError (last xs).

Definition authenticate_with_kite (request_token : option string) : M unit :=
  ZerodhaBacktestingWorkflow.__init__ cfg env ;;
  ZerodhaBacktestingWorkflow.authenticate cfg env request_token ;;
  ret tt.

Definition fetch_data : M unit :=
  ZerodhaBacktestingWorkflow.__init__ cfg env ;;
  auth <- AuthenticationManager.is_authenticated ;;
  if negb auth then
    print MsgMustAuthenticate ;; ret tt
  else
    ZerodhaBacktestingWorkflow.fetch_and_save_data cfg env 365 ;; ret tt.

Definition check_status : M unit :=
  ZerodhaBacktestingWorkflow.__init__ cfg env ;;
  ZerodhaBacktestingWorkflow.get_status_report cfg env.

(** The body of the loop of [analyze_data] for one symbol. *)
Definition analyze_symbol (symbol : string) : M unit :=
  data <- ZerodhaBacktestingWorkflow.load_data cfg env symbol ;;
  if truthy data then
    let close_prices := c_close <$> default [] data in
    lo <- py_min close_prices ;;
    hi <- py_max close_prices ;;
    cur <- py_last close_prices ;;
    print (MsgAnalysis symbol (length (default [] data)) lo hi cur)
  else ret tt.

Fixpoint analyze_loop (symbols : list string) : M unit :=
  match symbols with
  | [] => ret tt
  | symbol :: rest => analyze_symbol symbol ;; analyze_loop rest
  end.

Definition analyze_data : M unit :=
  print MsgAnalysisHeader ;;
  ZerodhaBacktestingWorkflow.__init__ cfg env ;;
  analyze_loop (STOCKS cfg).
End QuickStart.

(** ** A concrete fragment of Python's floats

    The floats with an integer value of magnitude at most [2^53], each
    standing for itself: on them [str] is the decimal digits followed by
    [.0], and the order is the order of the integers.  [float(s)] is given on
    the texts of this fragment (digits with an optional all-zero fraction);
    it is used to run the program on concrete inputs. *)

Fixpoint all_zero (s : string) : bool :=
  match s with
  | EmptyString => true
  | String c r => Ascii.eqb c "0" && all_zero r
  end.

Fixpoint integral_digits (s : string) (acc : Z) (after_digit : bool) : option Z :=
  match s with
  | EmptyString => if after_digit then Some acc else None
  | String c r =>
      if is_digit c then integral_digits r (10 * acc + digit_val c) true
      else if Ascii.eqb c "." then
        if after_digit && all_zero r then Some acc else None
      else None
  end.

Definition integral_of_str (s : string) : option Z :=
  match py_strip s with
  | String c r =>
      if Ascii.eqb c "-" then Z.opp <$> integral_digits r 0 false
      else if Ascii.eqb c "+" then integral_digits r 0 false
      else integral_digits (String c r) 0 false
  | EmptyString => None
  end.

#[export] Instance IntegralFloat : PyFloat := {|
  float := Z;
  float_str z := int_str z +:+ ".0";
  float_of_str := integral_of_str;
  float_ltb := Z.ltb;
  float_finite z := Z.abs z <=? 2 ^ 53;
  float_nonneg z := 0 <=? z
|}.

(** ** The Candle invariant of the data model *)

(** Prices are finite and non-negative, the volume is a non-negative
    integer. *)
Definition Candle_invariant `{PyFloat} (c : candle) : bool :=
  float_finite (c_open c) && float_nonneg (c_open c) &&
  float_finite (c_high c) && float_nonneg (c_high c) &&
  float_finite (c_low c) && float_nonneg (c_low c) &&
  float_finite (c_close c) && float_nonneg (c_close c) &&
  (0 <=? c_volume c).


(** The stem of a file name ending in [.csv]: the name without that
    extension. *)
Definition stem (name : string) : string :=
  substring 0 (String.length name - 4) name.

(** Modelled from the spec: the missing set of the status report as the
    specification words it, the configured symbols minus the stems of the
    [.csv] files present. *)
Definition missing_by_stem (cfg : Config) (files : list string) : gset string :=
  list_to_set (STOCKS cfg) ∖
  list_to_set (stem <$> filter (fun f => endswith_csv f = true) files).

(** A candle as it comes back from a file: the date is the text that was
    written for it, read in text mode. *)
Definition reread `{PyFloat} (c : candle) : candle :=
  {| c_date := PyStr (universal_newlines (csv_field (c_date c))); c_open := c_open c;
     c_high := c_high c; c_low := c_low c; c_close := c_close c;
     c_volume := c_volume c |}.

(** Two candles with the same prices and the same volume. *)
Definition same_numbers `{PyFloat} (c c' : candle) : Prop :=
  c_open c' = c_open c /\ c_high c' = c_high c /\ c_low c' = c_low c /\
  c_close c' = c_close c /\ c_volume c' = c_volume c.

(** ** Observations on a run *)

(** The tickers of the provider requests in a trace, in order. *)
Definition downloads (tr : list event) : list string :=
  omap (fun ev => match ev with EvDownload t _ => Some t | _ => None end) tr.

(** The symbols announced as being fetched, in order. *)
Definition fetched_symbols `{PyFloat} (out : list message) : list string :=
  omap (fun m => match m with MsgFetching s _ => Some s | _ => None end) out.

(** The symbols [save_data_to_csv] has reported on, in order: saved, nothing
    to save, or an error while saving. *)
Definition handled_symbols `{PyFloat} (out : list message) : list string :=
  omap (fun m => match m with
                 | MsgNoDataToSave s | MsgSaved s _ | MsgSaveError s _ => Some s
                 | _ => None
                 end) out.

(** The counts reported at the end of [fetch_and_save_data]. *)
Definition reported_counts `{PyFloat} (out : list message) : list (nat * nat) :=
  omap (fun m => match m with MsgSavedCount n t => Some (n, t) | _ => None end) out.

(** What a step may change: it keeps the manager, the credential file and
    the existence of the storage directory, issues the provider requests
    [tickers], announces the symbols [symbols], and reports no count. *)
Definition advances `{PyFloat} (s s' : State) (tickers symbols : list string) : Prop :=
  self s' = self s /\
  token_file (fs s') = token_file (fs s) /\
  (is_Some (data_dir (fs s)) -> is_Some (data_dir (fs s'))) /\
  downloads (trace s') = (downloads (trace s) ++ tickers)%list /\
  fetched_symbols (stdout s') = (fetched_symbols (stdout s) ++ symbols)%list /\
  reported_counts (stdout s') = reported_counts (stdout s).

(** The lists of missing symbols a status report printed. *)
Definition reported_missing `{PyFloat} (out : list message) : list (list string) :=
  omap (fun m => match m with MsgMissing l => Some l | _ => None end) out.

(** The analyses printed: symbol, number of records, lowest, highest and
    last close. *)
Definition reported_analyses `{PyFloat} (out : list message)
  : list (string * nat * float * float * float) :=
  omap (fun m => match m with
                 | MsgAnalysis symbol n lo hi cur => Some (symbol, n, lo, hi, cur)
                 | _ => None
                 end) out.

(** The external ticker of a symbol, as [fetch_historical_data] resolves it. *)
Definition ticker_of (cfg : Config) (symbol : string) : string :=
  default (symbol +:+ ".NS") (TICKER_MAP cfg !! symbol).

(** A provider row every cell of which converts. *)
Definition convertible `{PyFloat} (r : yrow) : bool :=
  match Open r, High r, Low r, Close r, Volume r with
  | Some _, Some _, Some _, Some _, (None | Some (Some _)) => true
  | _, _, _, _, _ => false
  end.

(** No write to the file at [path] fails, from write [n] on, for [k] writes. *)
Definition writes_ok `{PyFloat} (env : Env) (path : string) (n k : nat) : bool :=
  forallb (fun i => bool_decide (fault env (CallWrite path i) = None)) (seq n k).

(** The window of [days] days that ends today has a first day. *)
Definition window_ok `{PyFloat} (env : Env) (days : Z) : bool :=
  match timedelta days with
  | Ret delta => negb (raised (date_minus (today env) delta))
  | Raise _ => false
  end.

(** The fetch-then-save pair succeeds for a symbol, in terms of the
    environment alone: the window has a first day, the provider answers with
    at least one row, every row converts, the file opens, and the header and
    every row are written. *)
Definition pair_succeeds `{PyFloat} (cfg : Config) (env : Env) (days : Z)
                         (symbol : string) : bool :=
  window_ok env days &&
  match yf_download env (ticker_of cfg symbol) days with
  | Ret (r :: rows) =>
      forallb convertible (r :: rows) &&
      bool_decide (fault env (CallOpenWrite
                                (path_join (DATA_DIR cfg) (csv_name symbol))) = None) &&
      writes_ok env (path_join (DATA_DIR cfg) (csv_name symbol)) 0
                (S (length (r :: rows)))
  | _ => false
  end.



(** The content of the file called [name] in the storage directory: [None]
    when the directory or the file is absent. *)
Definition file_at `{PyFloat} (s : State) (name : string) : option csv_file :=
  data_dir (fs s) ≫= (fun d => d !! name).

(** What a run must leave alone when it may only write the files of the
    configured symbols: the manager, the credential file, and the file called
    [other]. *)
Definition outside_view `{PyFloat} (other : string) (s : State)
  : AuthenticationManager * option string * option csv_file :=
  (self s, token_file (fs s), file_at s other).

(** What a read-only run must leave alone: the file system and the trace of
    network calls and writes. *)
Definition world_view `{PyFloat} (s : State) : FileSystem * list event :=
  (fs s, trace s).

(** ** Concrete configurations, environments and states *)

Definition cfg_source : Config := Config_source "kite-key" "kite-secret".

(** The configuration of the specification's example: symbols A, B, C. *)
Definition cfg_abc : Config :=
  {| API_KEY := "kite-key"; API_SECRET := "kite-secret";
     STOCKS := ["A"; "B"; "C"]; TICKER_MAP := ∅;
     DATA_DIR := "historical_data"; TOKEN_FILE := "access_token.txt" |}.

Definition no_fault : call -> option exn := fun _ => None.

(** Three daily rows with increasing dates. *)
Definition three_rows : list yrow :=
  [ {| idx := "2024-01-01 00:00:00"; Open := Some 100; High := Some 110;
       Low := Some 95; Close := Some 105; Volume := Some (Some 12345) |};
    {| idx := "2024-01-02 00:00:00"; Open := Some 105; High := Some 120;
       Low := Some 101; Close := Some 118; Volume := Some (Some 23456) |};
    {| idx := "2024-01-03 00:00:00"; Open := Some 118; High := Some 119;
       Low := Some 90; Close := Some 92; Volume := Some (Some 34567) |} ].

(** The exchange succeeds and the provider has three rows for every ticker;
    today is 2024-01-04.  After an I/O error nothing has reached the disk. *)
Definition env_ok : Env :=
  {| fault := no_fault;
     generate_session := fun request_token _ =>
       Ret (list_to_map [("access_token", PyStr ("token-for-" +:+ request_token));
                         ("user_name", PyStr "Trader")]);
     yf_download := fun _ _ => Ret three_rows;
     login_url := fun key => "https://kite.zerodha.com/connect/login?api_key=" +:+ key;
     today := 738889;
     today_valid := I;
     left_on_disk := fun _ _ => [] |}.

(** The exchange call itself fails: network error or rejected token. *)
Definition env_rejecting : Env :=
  {| fault := no_fault;
     generate_session := fun _ _ => Raise SDKError;
     yf_download := fun _ _ => Ret three_rows;
     login_url := login_url env_ok;
     today := today env_ok;
     today_valid := I;
     left_on_disk := left_on_disk env_ok |}.


(** Creating the storage directory fails, and so does listing it. *)
Definition env_readonly : Env :=
  {| fault := fun c => match c with
                       | CallMakedirs _ | CallListdir _ => Some OSError
                       | _ => None
                       end;
     generate_session := generate_session env_ok;
     yf_download := yf_download env_ok;
     login_url := login_url env_ok;
     today := today env_ok;
     today_valid := I;
     left_on_disk := left_on_disk env_ok |}.




Definition blank_manager : AuthenticationManager :=
  {| kite := {| api_key := "kite-key"; installed_token := PyNone |};
     access_token := PyNone;
     authenticated := false |}.

(** A manager that holds a token loaded earlier. *)
Definition loaded_manager : AuthenticationManager :=
  {| kite := {| api_key := "kite-key"; installed_token := PyStr "old-token" |};
     access_token := PyStr "old-token";
     authenticated := true |}.

Definition state_of (a : AuthenticationManager) (f : FileSystem) : State :=
  {| self := a; fs := f; trace := []; stdout := [] |}.

Definition fs_empty : FileSystem := {| token_file := None; data_dir := None |}.

Definition fs_with_token : FileSystem :=
  {| token_file := Some "old-token"; data_dir := None |}.

(** A file whose second data row has text that is no number under
    [close]. *)
Definition malformed_table : csv_file :=
  [ fieldnames;
    ["2024-01-01 00:00:00"; "100.0"; "110.0"; "95.0"; "105.0"; "12345"];
    ["2024-01-02 00:00:00"; "105.0"; "120.0"; "101.0"; "n/a"; "23456"] ].


(** A series of three candles, and a file system with an empty storage
    directory. *)
Definition three_candles : list candle :=
  [ {| c_date := PyStr "2024-01-01 00:00:00"; c_open := 100; c_high := 110;
       c_low := 95; c_close := 105; c_volume := 12345 |};
    {| c_date := PyStr "2024-01-02 00:00:00"; c_open := 105; c_high := 120;
       c_low := 101; c_close := 118; c_volume := 23456 |};
    {| c_date := PyStr "2024-01-03 00:00:00"; c_open := 118; c_high := 119;
       c_low := 90; c_close := 92; c_volume := 34567 |} ].



Definition fs_empty_dir : FileSystem :=
  {| token_file := Some "old-token"; data_dir := Some ∅ |}.

(** The configuration of the specification's scenario: the one symbol X. *)
Definition cfg_x : Config :=
  {| API_KEY := "kite-key"; API_SECRET := "kite-secret";
     STOCKS := ["X"]; TICKER_MAP := ∅;
     DATA_DIR := "historical_data"; TOKEN_FILE := "access_token.txt" |}.

(** A storage directory with a file that has a header and no data row, a
    file with a malformed row, and a well-formed file. *)
Definition fs_mixed : FileSystem :=
  {| token_file := None;
     data_dir := Some (<[ "INFY.csv" := [fieldnames] ]>
                       (<[ "TCS.csv" := malformed_table ]>
                        {[ "ITC.csv" := fieldnames :: (candle_row <$> three_candles) ]})) |}.

(** A storage directory whose only file carries the extension twice. *)
Definition fs_double_extension : FileSystem :=
  {| token_file := None;
     data_dir := Some {[ "TCS.csv.csv" := fieldnames :: (candle_row <$> three_candles) ]} |}.

(** The directory of the specification's example: the one file [A.csv],
    next to a file that is no CSV file. *)
Definition fs_a : FileSystem :=
  {| token_file := None;
     data_dir := Some (<[ "notes.txt" := [["B"]] ]>
                       {[ "A.csv" := fieldnames :: (candle_row <$> three_candles) ]}) |}.



(** * Properties *)

(** ** Running the monad *)

Ltac unfold_monad :=
  cbv [bind ret raise try_except get_self set_self get_fs set_fs emit print
       or_raise lift attempt] in *.

(** Split on every external call and every lookup a run depends on. *)
Ltac run :=
  unfold_monad; simpl in *;
  repeat (case_match; simpl in *; simplify_eq; try done).

(** ** The authentication manager *)

Section Authentication.
Context `{PyFloat} (cfg : Config) (env : Env).

Import AuthenticationManager.

(** [authenticate_with_token] catches everything: it returns a boolean, and
    that boolean is the flag it leaves behind. *)
Lemma authenticate_with_token_returns request_token s :
  exists b s', authenticate_with_token cfg env request_token s = (Ret b, s') /\
               authenticated (self s') = b.
Proof.
  unfold authenticate_with_token, open_token_file_w, write_token_file,
    kite_set_access_token, set_access_token_attr, set_authenticated.
  run; eauto.
Qed.

(** [load_existing_token] catches everything too. *)
Lemma load_existing_token_returns s :
  exists b s', load_existing_token cfg env s = (Ret b, s') /\
               (b = true -> authenticated (self s') = true) /\
               (b = false -> self s' = self s \/
                             exists v, self s' = {| kite := kite (self s);
                                                    access_token := v;
                                                    authenticated := authenticated (self s) |}).
Proof.
  unfold load_existing_token, kite_set_access_token, set_access_token_attr,
    set_authenticated.
  run; (do 2 eexists; split; [reflexivity |]; simpl; split; intros;
        simplify_eq; eauto).
Qed.
(** C1. The authentication state machine: a manager constructed while no
    credential file exists reports unauthenticated; a call of
    [load_existing_token] or of [authenticate_with_token] that returns
    [True] leaves [is_authenticated()] true; [authenticate_with_token]
    always returns a boolean, and when it returns [False] from the
    unauthenticated state [is_authenticated()] is false. *)
Theorem authentication_state_machine (request_token : string) (s : State) :
  (token_file (fs s) = None ->
   exists s', __init__ cfg env s = (Ret tt, s') /\
              fst (is_authenticated s') = Ret false) /\
  (forall s', load_existing_token cfg env s = (Ret true, s') ->
              fst (is_authenticated s') = Ret true) /\
  (forall s', authenticate_with_token cfg env request_token s = (Ret true, s') ->
              fst (is_authenticated s') = Ret true) /\
  (exists b s', authenticate_with_token cfg env request_token s = (Ret b, s')) /\
  (forall s', fst (is_authenticated s) = Ret false ->
              authenticate_with_token cfg env request_token s = (Ret false, s') ->
              fst (is_authenticated s') = Ret false).
Proof.
  repeat split.
  - intros Hfile. unfold __init__, load_existing_token. unfold_monad. simpl.
    rewrite Hfile. eauto.
  - intros s' Hrun.
    destruct (load_existing_token_returns s) as (b & s1 & Heq & Htrue & _).
    rewrite Heq in Hrun. injection Hrun as -> ->. simpl. by rewrite Htrue.
  - intros s' Hrun.
    destruct (authenticate_with_token_returns request_token s) as (b & s1 & Heq & Hflag).
    rewrite Heq in Hrun. injection Hrun as -> ->. simpl. by rewrite Hflag.
  - destruct (authenticate_with_token_returns request_token s) as (b & s1 & Heq & _).
    eauto.
  - intros s' _ Hrun.
    destruct (authenticate_with_token_returns request_token s) as (b & s1 & Heq & Hflag).
    rewrite Heq in Hrun. injection Hrun as -> ->. simpl. by rewrite Hflag.
Qed.


(** C9. When the exchange call itself raises, [authenticate_with_token]
    returns [False] and leaves both the [access_token] attribute and the
    token installed on the SDK client as they were, while
    [is_authenticated()] becomes false. *)
Theorem failed_exchange_keeps_tokens (request_token : string) (s : State) (e : exn) :
  generate_session env request_token (API_SECRET cfg) = Raise e ->
  exists s', authenticate_with_token cfg env request_token s = (Ret false, s') /\
             access_token (self s') = access_token (self s) /\
             installed_token (kite (self s')) = installed_token (kite (self s)) /\
             fs s' = fs s /\
             fst (is_authenticated s') = Ret false.
Proof.
  intros Hraise. unfold authenticate_with_token, set_authenticated.
  unfold_monad. simpl. rewrite Hraise. simpl. eauto 10.
Qed.
End Authentication.

(** A run is determined by its outcome and its final state. *)
Lemma run_eq {A B : Type} (p : A * B) (a : A) : p.1 = a -> p = (a, p.2).
Proof. destruct p. simpl. congruence. Qed.

(** The state machine on concrete runs: construction without a credential
    file, a load from an existing file, a successful exchange, and a rejected
    exchange from the unauthenticated state. *)
Lemma authentication_state_machine_witness :
  (exists s', AuthenticationManager.__init__ cfg_source env_ok
                (state_of blank_manager fs_empty) = (Ret tt, s') /\
              fst (AuthenticationManager.is_authenticated s') = Ret false) /\
  fst (AuthenticationManager.is_authenticated
         (AuthenticationManager.load_existing_token cfg_source env_ok
            (state_of blank_manager fs_with_token)).2) = Ret true /\
  fst (AuthenticationManager.is_authenticated
         (AuthenticationManager.authenticate_with_token cfg_source env_ok "request-token"
            (state_of blank_manager fs_empty)).2) = Ret true /\
  fst (AuthenticationManager.is_authenticated
         (AuthenticationManager.authenticate_with_token cfg_source env_rejecting
            "request-token" (state_of blank_manager fs_empty)).2) = Ret false.
Proof.
  pose proof (authentication_state_machine cfg_source env_ok "request-token"
                (state_of blank_manager fs_empty)) as (Hinit & _ & Hexchange & _).
  pose proof (authentication_state_machine cfg_source env_ok "request-token"
                (state_of blank_manager fs_with_token)) as (_ & Hload & _).
  pose proof (authentication_state_machine cfg_source env_rejecting "request-token"
                (state_of blank_manager fs_empty)) as (_ & _ & _ & _ & Hfail).
  split; [| split; [| split]].
  - apply Hinit. reflexivity.
  - apply Hload. apply run_eq. vm_compute. reflexivity.
  - apply Hexchange. apply run_eq. vm_compute. reflexivity.
  - apply Hfail; [reflexivity |]. apply run_eq. vm_compute. reflexivity.
Defined.



(** A token loaded earlier stays installed after a rejected exchange, while
    the manager reports unauthenticated. *)
Lemma failed_exchange_keeps_tokens_witness :
  exists s', AuthenticationManager.authenticate_with_token cfg_source env_rejecting
               "request-token" (state_of loaded_manager fs_with_token) = (Ret false, s') /\
             access_token (self s') = PyStr "old-token" /\
             installed_token (kite (self s')) = PyStr "old-token" /\
             fs s' = fs_with_token /\
             fst (AuthenticationManager.is_authenticated s') = Ret false.
Proof.
  apply (failed_exchange_keeps_tokens cfg_source env_rejecting "request-token"
           (state_of loaded_manager fs_with_token) SDKError).
  reflexivity.
Defined.
(** ** Steps and what they leave alone *)

Section Steps.
Context `{PyFloat}.

Lemma advances_refl (s : State) : advances s s [] [].
Proof. unfold advances. rewrite !app_nil_r. by eauto 10. Qed.

Lemma advances_trans (s s1 s2 : State) t1 t2 y1 y2 :
  advances s s1 t1 y1 -> advances s1 s2 t2 y2 ->
  advances s s2 (t1 ++ t2)%list (y1 ++ y2)%list.
Proof.
  unfold advances. intros (A1 & B1 & C1 & D1 & E1 & F1) (A2 & B2 & C2 & D2 & E2 & F2).
  rewrite !app_assoc, <- D1, <- E1. repeat split; try congruence; auto.
Qed.

(** A step that only prints [m], where [m] announces no symbol and reports
    no count. *)
Lemma advances_print (s : State) (m : message) :
  fetched_symbols [m] = [] -> reported_counts [m] = [] ->
  advances s (print m s).2 [] [].
Proof.
  intros Hf Hr. unfold advances, fetched_symbols, reported_counts in *. simpl.
  rewrite !omap_app, Hf, Hr, !app_nil_r. by eauto 10.
Qed.
End Steps.

Ltac solve_advances :=
  unfold advances, downloads, fetched_symbols, reported_counts; simpl;
  rewrite ?omap_app; simpl; rewrite ?app_nil_r, <- ?app_assoc; simpl;
  repeat split; auto; try done.

(** ** The fetcher *)

Section Fetching.
Context `{PyFloat} (cfg : Config) (env : Env).

Import MarketDataFetcher.

Lemma convert_row_pure (r : yrow) (s : State) :
  exists o, convert_row r s = (o, s) /\ raised o = negb (convertible r).
Proof.
  unfold convert_row, convertible. destruct r as [i o h l c v].
  destruct o, h, l, c, v as [[|]|]; unfold_monad; simpl; eauto.
Qed.

(** Converting the provider's rows touches nothing; it goes through exactly
    when every row converts, and then yields one candle per row. *)
Lemma convert_rows_pure (rows : list yrow) (acc : list candle) (s : State) :
  exists o, convert_rows rows acc s = (o, s) /\
            raised o = negb (forallb convertible rows) /\
            forall data, o = Ret data ->
                         length data = (length acc + length rows)%nat.
Proof.
  revert acc. induction rows as [| r rows IH]; intros acc; simpl.
  - eexists. split; [reflexivity |]. split; [done |].
    intros data [= <-]. lia.
  - destruct (convert_row_pure r s) as (o & Hrow & Hraised).
    unfold bind at 1. rewrite Hrow. destruct o as [c | e]; simpl in *.
    + destruct (IH (acc ++ [c])%list) as (o' & Hrows & Hr' & Hlen).
      exists o'. split; [done |]. split.
      * rewrite Hr'. by destruct (convertible r).
      * intros data Hd. rewrite (Hlen data Hd), length_app. simpl. lia.
    + eexists. split; [reflexivity |]. split; [| done].
      simpl. by destruct (convertible r).
Qed.

(** [fetch_historical_data] never raises and writes nothing.  When the
    window has a first day it issues one request, for the symbol's ticker,
    and returns data exactly when the provider answers with rows that all
    convert; otherwise it issues none and returns [None]. *)
Lemma fetch_historical_data_returns (symbol : string) (days : Z) (s : State) :
  exists r s', fetch_historical_data cfg env symbol days s = (Ret r, s') /\
               advances s s' (if window_ok env days then [ticker_of cfg symbol] else [])
                             (if window_ok env days then [symbol] else []) /\
               fs s' = fs s /\
               if window_ok env days then
                 match yf_download env (ticker_of cfg symbol) days with
                 | Ret (row :: rows) =>
                     if forallb convertible (row :: rows)
                     then exists data, r = Some data /\
                                       length data = length (row :: rows)
                     else r = None
                 | _ => r = None
                 end
               else r = None.
Proof.
  unfold fetch_historical_data, ticker_of, window_ok.
  unfold try_except. unfold bind at 1. unfold lift at 1.
  destruct (timedelta days) as [delta | e].
  2: { unfold print, ret, bind. do 2 eexists. split; [reflexivity |].
       by solve_advances. }
  unfold bind at 1. unfold lift at 1.
  destruct (date_minus (today env) delta) as [from_date | e]; cbn [raised negb].
  2: { unfold print, ret, bind. do 2 eexists. split; [reflexivity |].
       by solve_advances. }
  unfold bind, print, emit, lift at 1. cbn -[convert_rows forallb].
  destruct (yf_download env _ days) as [[| row rows] | e]; cbn -[convert_rows forallb].
  - do 2 eexists. split; [reflexivity |]. by solve_advances.
  - match goal with |- context [convert_rows ?l ?a ?st] =>
      destruct (convert_rows_pure l a st) as (o & Hrows & Hraised & Hlen) end.
    rewrite Hrows. cbn -[forallb].
    destruct o as [data | e]; cbn -[forallb] in *.
    + do 2 eexists. split; [reflexivity |]. split; [by solve_advances |].
      split; [done |].
      destruct (forallb convertible (row :: rows)); [| done].
      eexists. split; [done |]. by rewrite (Hlen data eq_refl).
    + do 2 eexists. split; [reflexivity |]. split; [by solve_advances |].
      split; [done |].
      by destruct (forallb convertible (row :: rows)).
  - do 2 eexists. split; [reflexivity |]. by solve_advances.
Qed.

Lemma write_row_spec (name : string) (n : nat) (row : list string) (s : State) :
  exists o s', write_row cfg env name n row s = (o, s') /\
               advances s s' [] [] /\
               raised o = negb (bool_decide
                 (fault env (CallWrite (path_join (DATA_DIR cfg) name) n) = None)) /\
               (o = Ret tt ->
                data_dir (fs s') =
                alter (fun rows => (rows ++ [row])%list) name <$> data_dir (fs s)).
Proof.
  unfold write_row. unfold_monad. simpl.
  destruct (fault env _) as [[] |] eqn:Hfault; simpl;
    (do 2 eexists; split; [reflexivity |]; split; [| done]);
    solve_advances; by rewrite ?fmap_is_Some.
Qed.

(** Writing the rows appends them to the file, one write each; it goes
    through exactly when none of the writes fails. *)
Lemma write_rows_spec (name : string) (data : list candle) (n : nat) (s : State) :
  exists o s', write_rows cfg env name n data s = (o, s') /\
               advances s s' [] [] /\
               raised o = negb (writes_ok env (path_join (DATA_DIR cfg) name) n
                                          (length data)) /\
               (o = Ret tt ->
                data_dir (fs s') =
                alter (fun rows => (rows ++ (candle_row <$> data))%list) name
                  <$> data_dir (fs s)).
Proof.
  revert n s. induction data as [| c data IH]; intros n s; simpl.
  - do 2 eexists. split; [reflexivity |]. split; [apply advances_refl |].
    split; [done |]. intros _.
    destruct (data_dir (fs s)) as [d |]; simpl; [| done]. f_equal.
    symmetry. apply alter_id. intros rows _. apply app_nil_r.
  - destruct (write_row_spec name n (candle_row c) s)
      as (o1 & s1 & Hrow & Hadv1 & Hraised1 & Hdir1).
    unfold bind at 1. rewrite Hrow.
    destruct o1 as [[] | e]; simpl in *.
    + destruct (IH (S n) s1) as (o2 & s2 & Hrows & Hadv2 & Hraised2 & Hdir2).
      exists o2, s2. split; [done |].
      split; [apply (advances_trans _ _ _ _ _ _ _ Hadv1 Hadv2) |].
      split.
      * rewrite Hraised2. unfold writes_ok. simpl.
        by destruct (bool_decide _).
      * intros Ho. rewrite (Hdir2 Ho), (Hdir1 eq_refl).
        destruct (data_dir (fs s)) as [d |]; simpl; [| done]. f_equal.
        rewrite alter_alter_eq. apply alter_ext. intros rows _. simpl.
        by rewrite <- app_assoc.
    + do 2 eexists. split; [reflexivity |]. split; [done |].
      split; [| done]. unfold writes_ok. simpl. by destruct (bool_decide _).
Qed.

(** [save_data_to_csv] never raises and issues no request; when the
    storage directory exists it returns [True] exactly when there is data,
    the file opens, and the header and every row are written. *)
Lemma save_data_to_csv_returns (symbol : string) (data : option (list candle))
                               (s : State) :
  exists b s', save_data_to_csv cfg env symbol data s = (Ret b, s') /\
               advances s s' [] [] /\
               (is_Some (data_dir (fs s)) ->
                b = truthy data &&
                    bool_decide (fault env (CallOpenWrite
                      (path_join (DATA_DIR cfg) (csv_name symbol))) = None) &&
                    writes_ok env (path_join (DATA_DIR cfg) (csv_name symbol)) 0
                              (S (length (default [] data)))) /\
               (b = true ->
                exists d', data_dir (fs s') = Some d' /\
                           d' !! csv_name symbol
                           = Some (fieldnames :: (candle_row <$> default [] data))).
Proof.
  unfold save_data_to_csv.
  destruct (truthy data) eqn:Htruthy; simpl.
  2: { unfold_monad. simpl. do 2 eexists. split; [reflexivity |].
       split; [by solve_advances | done]. }
  unfold try_except, open_csv_w.
  unfold bind at 1. unfold bind at 1. unfold emit at 1. unfold bind at 1.
  unfold attempt at 1.
  destruct (fault env (CallOpenWrite _)) as [e |] eqn:Hopen.
  { unfold_monad. simpl. do 2 eexists. split; [reflexivity |].
    split; [by solve_advances | done]. }
  unfold ret at 1. unfold bind at 1. unfold get_fs at 1. cbn [fs].
  destruct (data_dir (fs s)) as [d |] eqn:Hdir.
  2: { unfold_monad. simpl. do 2 eexists. split; [reflexivity |].
       split; [solve_advances; by rewrite Hdir |].
       split; [by intros [] | done]. }
  unfold set_fs at 1. cbn [self fs trace stdout]. unfold bind at 1.
  match goal with |- context [write_row cfg env ?nm ?n ?row ?st] =>
    assert (advances s st [] []) as Hadv0 by (by solve_advances);
    destruct (write_row_spec nm n row st) as (o1 & s1 & Hrow & Hadv1 & Hr1 & Hd1) end.
  rewrite Hrow.
  pose proof (advances_trans _ _ _ _ _ _ _ Hadv0 Hadv1) as Hadv.
  destruct o1 as [[] | e]; simpl in Hr1.
  2: { unfold_monad. simpl. do 2 eexists. split; [reflexivity |].
       split. { apply (advances_trans _ _ _ _ _ _ _ Hadv). by solve_advances. }
       split; [| done].
       intros _. unfold writes_ok. simpl. by destruct (bool_decide _). }
  destruct (write_rows_spec (csv_name symbol) (default [] data) 1 s1)
    as (o2 & s2 & Hrows & Hadv2 & Hr2 & Hd2).
  unfold bind at 1. rewrite Hrows.
  unfold writes_ok in *. simpl.
  destruct (bool_decide (fault env (CallWrite _ 0) = None)); [| done].
  destruct o2 as [[] | e]; simpl in Hr2;
    unfold_monad; simpl; (do 2 eexists; split; [reflexivity |]);
    (split; [apply (advances_trans _ _ _ _ _ _ _ Hadv);
             apply (advances_trans _ _ _ _ _ _ _ Hadv2); by solve_advances |]).
  - split; [intros _; by destruct (forallb _ _) |].
    intros _. cbn [fs]. rewrite (Hd2 eq_refl), (Hd1 eq_refl).
    cbn [fmap option_fmap option_map].
    eexists. split; [reflexivity |].
    rewrite !lookup_alter_eq, lookup_insert_eq. done.
  - split; [intros _; by destruct (forallb _ _) | done].
Qed.
End Fetching.
(** ** The storage manager *)

Section Storage.
Context `{PyFloat} (cfg : Config) (env : Env).

Import DataStorageManager.

(** [setup_directories] returns [True] when the directory exists or can be
    created; a failure of [os.makedirs] is not caught. *)
Lemma setup_directories_spec (s : State) :
  exists o s', setup_directories cfg env s = (o, s') /\
               advances s s' [] [] /\
               match data_dir (fs s), fault env (CallMakedirs (DATA_DIR cfg)) with
               | None, Some e => o = Raise e /\ fs s' = fs s
               | _, _ => o = Ret true /\ is_Some (data_dir (fs s'))
               end.
Proof.
  unfold setup_directories. unfold_monad. simpl.
  destruct (data_dir (fs s)) as [d |] eqn:Hdir; simpl.
  - do 2 eexists. split; [reflexivity |]. split; [apply advances_refl |].
    rewrite Hdir. eauto.
  - destruct (fault env _) as [e |]; simpl;
      (do 2 eexists; split; [reflexivity |]; split; [by solve_advances |]); eauto.
Qed.

(** Reading the fields of a row touches nothing. *)
Lemma parse_row_pure (row : gmap string (option string)) (s : State) :
  exists o, parse_row row s = (o, s).
Proof.
  unfold parse_row, row_float, row_int, row_get. run; eauto.
Qed.

Lemma parse_rows_pure (rows : list (gmap string (option string)))
                      (data : list candle) (s : State) :
  exists o, parse_rows rows data s = (o, s).
Proof.
  revert data. induction rows as [| r rows IH]; intros data; simpl.
  - by eexists.
  - destruct (parse_row_pure r s) as (o & Hrow). unfold bind. rewrite Hrow.
    destruct o; eauto.
Qed.

(** [load_csv] never raises and changes nothing but the output. *)
Lemma load_csv_returns (symbol : string) (s : State) :
  exists r s', load_csv cfg env symbol s = (Ret r, s') /\
               fs s' = fs s /\ self s' = self s /\ trace s' = trace s.
Proof.
  unfold load_csv. unfold bind at 1. unfold get_fs at 1.
  destruct (data_dir (fs s) ≫= _) as [tbl |].
  - unfold try_except, bind, attempt, ret, raise.
    destruct (fault env (CallOpenRead _)); simpl; [unfold print; simpl; eauto 10 |].
    destruct (fault env (CallRead _)); simpl; [unfold print; simpl; eauto 10 |].
    destruct (parse_rows_pure (DictReader (text_mode tbl)) [] s) as (o & Hrows).
    rewrite Hrows. destruct o; unfold print; simpl; eauto 10.
  - unfold_monad. simpl. eauto 10.
Qed.
End Storage.
(** ** Loading a file with a malformed field *)

Section Loading.
Context `{PyFloat} (cfg : Config) (env : Env).

Import DataStorageManager.



End Loading.
(** ** Integers as text *)

Lemma digit_char_spec (d : Z) :
  0 <= d < 10 ->
  is_digit (digit_char d) = true /\ digit_val (digit_char d) = d /\
  is_plain (digit_char d) = true.
Proof.
  intros Hd.
  assert (d = 0 \/ d = 1 \/ d = 2 \/ d = 3 \/ d = 4 \/ d = 5 \/ d = 6 \/ d = 7 \/
          d = 8 \/ d = 9) as Hcases by lia.
  repeat destruct Hcases as [-> | Hcases]; try subst d; done.
Qed.

Lemma digits_aux_S (fuel : nat) (n : Z) (acc : string) :
  digits_aux (S fuel) n acc =
  if n <? 10 then String (digit_char (n mod 10)) acc
  else digits_aux fuel (n / 10) (String (digit_char (n mod 10)) acc).
Proof. reflexivity. Qed.

Section Readers.
(** A left-to-right reader of digits with an accumulator, such as
    [int_digits]. *)
Variable read : string -> Z -> bool -> option Z.
Hypothesis read_digit : forall c r acc after_digit,
  is_digit c = true ->
  read (String c r) acc after_digit = read r (10 * acc + digit_val c) true.

(** The digits of [n], read in front of [rest], leave [n] in the
    accumulator. *)
Lemma read_digits_aux (fuel : nat) (n : Z) (rest : string) (after_digit : bool) :
  0 <= n < 2 ^ Z.of_nat (S fuel) ->
  read (digits_aux (S fuel) n rest) 0 after_digit = read rest n true.
Proof.
  revert n rest after_digit.
  induction fuel as [| fuel IH]; intros n rest ad Hn; rewrite digits_aux_S.
  - assert (n < 10) as Hlt by (change (2 ^ Z.of_nat 1) with 2 in Hn; lia).
    apply Z.ltb_lt in Hlt as Hltb. rewrite Hltb, Z.mod_small by lia.
    destruct (digit_char_spec n) as (Hd & Hv & _); [lia |].
    rewrite read_digit, Hv by done. f_equal.
  - destruct (n <? 10) eqn:Hlt.
    + apply Z.ltb_lt in Hlt. rewrite Z.mod_small by lia.
      destruct (digit_char_spec n) as (Hd & Hv & _); [lia |].
      rewrite read_digit, Hv by done. f_equal.
    + apply Z.ltb_ge in Hlt.
      rewrite IH.
      * destruct (digit_char_spec (n mod 10)) as (Hd & Hv & _).
        { apply Z.mod_pos_bound. lia. }
        rewrite read_digit, Hv by done. f_equal.
        pose proof (Z.div_mod n 10). lia.
      * split; [apply Z.div_pos; lia |].
        apply Z.div_lt_upper_bound; [lia |].
        rewrite (Nat2Z.inj_succ (S fuel)), Z.pow_succ_r in Hn by lia. lia.
Qed.
End Readers.

Lemma log2_fuel (n : Z) : 0 <= n -> 0 <= n < 2 ^ Z.of_nat (S (Z.to_nat (Z.log2 n))).
Proof.
  intros Hn. split; [done |].
  rewrite Nat2Z.inj_succ, Z2Nat.id by apply Z.log2_nonneg.
  destruct (Z.eq_dec n 0) as [-> | Hne]; [done |].
  apply Z.log2_spec. lia.
Qed.

Lemma digits_aux_app (fuel : nat) (n : Z) (acc rest : string) :
  digits_aux fuel n acc +:+ rest = digits_aux fuel n (acc +:+ rest).
Proof.
  revert n acc. induction fuel as [| fuel IH]; intros n acc; simpl; [done |].
  destruct (n <? 10); [done |]. by rewrite IH.
Qed.

(** The digits start with a digit and are plain text. *)
Lemma digits_aux_shape (fuel : nat) (n : Z) (acc : string) :
  0 <= n ->
  string_forallb is_plain acc = true ->
  exists c r, digits_aux (S fuel) n acc = String c r /\ is_digit c = true /\
              string_forallb is_plain (String c r) = true.
Proof.
  revert n acc. induction fuel as [| fuel IH]; intros n acc Hn Hacc;
    rewrite digits_aux_S.
  - destruct (digit_char_spec (n mod 10)) as (Hd & _ & Hs).
    { apply Z.mod_pos_bound. lia. }
    destruct (n <? 10); do 2 eexists; (split; [reflexivity |]);
      cbn [string_forallb]; by rewrite Hd, Hs, Hacc.
  - destruct (digit_char_spec (n mod 10)) as (Hd & _ & Hs).
    { apply Z.mod_pos_bound. lia. }
    destruct (n <? 10).
    + do 2 eexists. split; [reflexivity |].
      cbn [string_forallb]. by rewrite Hd, Hs, Hacc.
    + apply IH; [apply Z.div_pos; lia |].
      cbn [string_forallb]. by rewrite Hs, Hacc.
Qed.

(** A plain byte is no white space and starts none. *)
Lemma is_plain_spec (a : ascii) :
  is_plain a = true ->
  is_space a = false /\ (forall b, is_space2 a b = false) /\
  (forall b c, is_space3 a b c = false).
Proof.
  unfold is_plain, is_space2, is_space3.
  intros [Hspace Hlt]%andb_true_iff.
  apply negb_true_iff in Hspace. apply Nat.ltb_lt in Hlt.
  split; [done |].
  split; intros; cbv zeta;
    repeat match goal with
           | |- context [(nat_of_ascii a =? ?k)%nat] =>
               rewrite (proj2 (Nat.eqb_neq (nat_of_ascii a) k)) by lia
           end;
    reflexivity.
Qed.

Lemma py_strip_id (s : string) :
  string_forallb is_plain s = true -> py_strip s = s.
Proof.
  intros Hs. unfold py_strip.
  assert (lstrip s = s) as ->.
  { destruct s as [| a r]; [done |]. cbn [string_forallb] in Hs.
    apply andb_true_iff in Hs as [Ha _].
    destruct (is_plain_spec a Ha) as (H1 & H2 & H3).
    cbn [lstrip]. rewrite H1. destruct r as [| b r2]; [done |]. rewrite H2.
    destruct r2 as [| c r3]; [done |]. by rewrite H3. }
  induction s as [| a r IH]; [done |]. cbn [string_forallb] in Hs.
  apply andb_true_iff in Hs as [Ha Hr].
  destruct (is_plain_spec a Ha) as (H1 & H2 & H3).
  cbn [rstrip]. rewrite (IH Hr).
  destruct r as [| b [| c [| d r]]]; cbn [is_whitespace]; by rewrite ?H1, ?H2, ?H3.
Qed.

(** Plain text holds no carriage return. *)
Lemma universal_newlines_plain (s : string) :
  string_forallb is_plain s = true -> universal_newlines s = s.
Proof.
  induction s as [| a r IH]; [done |]. cbn [string_forallb].
  intros [Ha Hr]%andb_true_iff. cbn [universal_newlines].
  destruct (Ascii.eqb_spec a "013") as [-> |]; [discriminate Ha |].
  by rewrite (IH Hr).
Qed.

Lemma digit_not_sign (c : ascii) :
  is_digit c = true -> Ascii.eqb c "-" = false /\ Ascii.eqb c "+" = false.
Proof.
  intros Hc. split.
  - destruct (Ascii.eqb_spec c "-") as [-> |]; [discriminate | done].
  - destruct (Ascii.eqb_spec c "+") as [-> |]; [discriminate | done].
Qed.

(** [int(str(z)) == z] *)
Lemma int_of_str_str (z : Z) : int_of_str (int_str z) = Some z.
Proof.
  assert (forall c r a ad, is_digit c = true ->
            int_digits (String c r) a ad = int_digits r (10 * a + digit_val c) true)
    as Hread by (intros c r a ad Hc; simpl; by rewrite Hc).
  unfold int_of_str, int_str. destruct (z <? 0) eqn:Hneg.
  - apply Z.ltb_lt in Hneg.
    destruct (digits_aux_shape (Z.to_nat (Z.log2 (- z))) (- z) "") as (c & r & Heq & Hc & Hs);
      [lia | done |].
    rewrite py_strip_id by (unfold digits; by rewrite Heq).
    unfold digits. rewrite (read_digits_aux _ Hread) by (apply log2_fuel; lia).
    simpl. f_equal. lia.
  - apply Z.ltb_ge in Hneg.
    destruct (digits_aux_shape (Z.to_nat (Z.log2 z)) z "") as (c & r & Heq & Hc & Hs);
      [lia | done |].
    rewrite py_strip_id by (unfold digits; by rewrite Heq).
    unfold digits. rewrite Heq.
    destruct (digit_not_sign c Hc) as [-> ->].
    rewrite <- Heq, (read_digits_aux _ Hread) by (apply log2_fuel; lia).
    done.
Qed.

(** The text of an integer, and what is plain after it, is plain. *)
Lemma int_str_plain_app (z : Z) (rest : string) :
  string_forallb is_plain rest = true ->
  string_forallb is_plain (int_str z +:+ rest) = true.
Proof.
  intros Hrest. unfold int_str. destruct (z <? 0) eqn:Hneg.
  - apply Z.ltb_lt in Hneg.
    change (String "-" (digits (- z)) +:+ rest)
      with (String "-" (digits (- z) +:+ rest)).
    unfold digits. rewrite digits_aux_app. change ("" +:+ rest) with rest.
    destruct (digits_aux_shape (Z.to_nat (Z.log2 (- z))) (- z) rest)
      as (c & r & Heq & _ & Hs); [lia | done |].
    rewrite Heq. change (is_plain "-" && string_forallb is_plain (String c r) = true).
    by rewrite Hs.
  - apply Z.ltb_ge in Hneg. unfold digits. rewrite digits_aux_app.
    change ("" +:+ rest) with rest.
    destruct (digits_aux_shape (Z.to_nat (Z.log2 z)) z rest)
      as (c & r & Heq & _ & Hs); [lia | done |].
    by rewrite Heq.
Qed.

Lemma int_str_plain (z : Z) : string_forallb is_plain (int_str z) = true.
Proof.
  unfold int_str. destruct (z <? 0) eqn:Hneg.
  - apply Z.ltb_lt in Hneg.
    destruct (digits_aux_shape (Z.to_nat (Z.log2 (- z))) (- z) "")
      as (c & r & Heq & _ & Hs); [lia | done |].
    unfold digits. rewrite Heq.
    change (is_plain "-" && string_forallb is_plain (String c r) = true).
    by rewrite Hs.
  - apply Z.ltb_ge in Hneg.
    destruct (digits_aux_shape (Z.to_nat (Z.log2 z)) z "")
      as (c & r & Heq & _ & Hs); [lia | done |].
    unfold digits. by rewrite Heq.
Qed.

(** The fragment of integer-valued floats satisfies the repr guarantee. *)
#[export] Instance IntegralFloat_repr : PyFloatRepr IntegralFloat.
Proof.
  assert (forall c r a ad, is_digit c = true ->
            integral_digits (String c r) a ad
            = integral_digits r (10 * a + digit_val c) true)
    as Hread by (intros c r a ad Hc; cbn [integral_digits]; by rewrite Hc).
  split.
  { intros z. cbn [float_str IntegralFloat].
    apply universal_newlines_plain. by apply int_str_plain_app. }
  intros z _. cbn [float_of_str float_str IntegralFloat]. unfold integral_of_str, int_str.
  destruct (z <? 0) eqn:Hneg.
  - apply Z.ltb_lt in Hneg.
    change (String "-" (digits (- z)) +:+ ".0")
      with (String "-" (digits (- z) +:+ ".0")).
    unfold digits. rewrite digits_aux_app.
    change ("" +:+ ".0") with ".0".
    destruct (digits_aux_shape (Z.to_nat (Z.log2 (- z))) (- z) ".0") as (c & r & Heq & Hc & Hs);
      [lia | done |].
    rewrite py_strip_id by (cbn [string_forallb]; by rewrite Heq).
    change (Ascii.eqb "-" "-") with true. cbn match.
    rewrite (read_digits_aux _ Hread) by (apply log2_fuel; lia).
    change (integral_digits ".0" (- z) true) with (Some (- z)).
    cbn [fmap option_fmap option_map]. f_equal. lia.
  - apply Z.ltb_ge in Hneg. unfold digits. rewrite digits_aux_app.
    change ("" +:+ ".0") with ".0".
    destruct (digits_aux_shape (Z.to_nat (Z.log2 z)) z ".0") as (c & r & Heq & Hc & Hs);
      [lia | done |].
    rewrite py_strip_id by (by rewrite Heq).
    rewrite Heq.
    destruct (digit_not_sign c Hc) as [-> ->].
    rewrite <- Heq, (read_digits_aux _ Hread) by (apply log2_fuel; lia).
    done.
Qed.


(** ** Writing a series and reading it back *)

Section RoundTrip.
Context `{F : PyFloat} `{!PyFloatRepr F} (cfg : Config) (env : Env).

Import DataStorageManager.

(** The dict [DictReader] builds from a row of six fields under the header
    the program writes. *)
Lemma dict_of_row_fieldnames (a b c d e f : string) (key : string) :
  key ∈ fieldnames ->
  dict_of_row fieldnames [a; b; c; d; e; f] !! key =
  Some (Some (if String.eqb key "date" then a
              else if String.eqb key "open" then b
              else if String.eqb key "high" then c
              else if String.eqb key "low" then d
              else if String.eqb key "close" then e
              else f)).
Proof.
  intros Hkey. unfold fieldnames in Hkey.
  repeat (apply elem_of_cons in Hkey as [-> | Hkey]);
    [| | | | | | by apply elem_of_nil in Hkey];
    vm_compute; reflexivity.
Qed.

Lemma Candle_invariant_finite (c : candle) :
  Candle_invariant c = true ->
  float_finite (c_open c) = true /\ float_finite (c_high c) = true /\
  float_finite (c_low c) = true /\ float_finite (c_close c) = true.
Proof.
  unfold Candle_invariant. rewrite !andb_true_iff. tauto.
Qed.

(** The header the program writes reads back as it is. *)
Lemma text_mode_header (rows : csv_file) :
  text_mode (fieldnames :: rows) = fieldnames :: text_mode rows.
Proof. reflexivity. Qed.

(** The row written for a candle, read in text mode, parses back to the
    candle. *)
Lemma parse_row_candle_row (c : candle) (s : State) :
  Candle_invariant c = true ->
  parse_row (dict_of_row fieldnames (universal_newlines <$> candle_row c)) s
  = (Ret (reread c), s).
Proof.
  intros Hinv. destruct (Candle_invariant_finite c Hinv) as (Ho & Hh & Hl & Hc).
  unfold parse_row, row_float, row_int, row_get, candle_row.
  cbn [fmap list_fmap].
  rewrite !float_str_plain, (universal_newlines_plain (int_str (c_volume c)))
    by apply int_str_plain.
  unfold bind, or_raise, ret.
  rewrite !dict_of_row_fieldnames
    by (unfold fieldnames; repeat (apply elem_of_cons; first [by left | right])).
  cbv [String.eqb Ascii.eqb Bool.eqb].
  rewrite !float_of_str_str by done.
  rewrite int_of_str_str. reflexivity.
Qed.

Lemma parse_rows_candle_rows (data acc : list candle) (s : State) :
  Forall (fun c => Candle_invariant c = true) data ->
  parse_rows (dict_of_row fieldnames <$> text_mode (candle_row <$> data)) acc s
  = (Ret (acc ++ (reread <$> data))%list, s).
Proof.
  intros Hall. revert acc. induction Hall as [| c data Hc Hall IH]; intros acc.
  - cbn. by rewrite app_nil_r.
  - unfold text_mode in *. cbn [fmap list_fmap parse_rows]. unfold bind at 1.
    fold (fmap (M := list) universal_newlines (candle_row c)).
    rewrite (parse_row_candle_row c s Hc).
    fold (fmap (M := list) candle_row data).
    fold (fmap (M := list) (fun row : list string => universal_newlines <$> row)
            (candle_row <$> data)).
    fold (fmap (M := list) (dict_of_row fieldnames)
            ((fun row : list string => universal_newlines <$> row)
               <$> (candle_row <$> data))).
    rewrite IH. cbn [fmap list_fmap]. by rewrite <- app_assoc.
Qed.

(** No row written for a candle is blank. *)
Lemma filter_candle_rows (data : list candle) :
  filter (fun r : list string => r ≠ []) (text_mode (candle_row <$> data))
  = text_mode (candle_row <$> data).
Proof.
  unfold text_mode. induction data as [| c data IH]; [done |].
  cbn [fmap list_fmap]. rewrite filter_cons_True by done.
  f_equal. exact IH.
Qed.

(** C3. A non-empty series whose candles satisfy the Candle invariant,
    written with [save_data_to_csv] and read back from the same file with
    [load_csv], comes back with the same number of rows and, row by row, the
    same open, high, low, close and volume.  The prices come back equal, so
    within every tolerance; the reads are taken not to fail. *)
Theorem csv_round_trip (symbol : string) (data : list candle) (s s1 : State) :
  data ≠ [] ->
  Forall (fun c => Candle_invariant c = true) data ->
  MarketDataFetcher.save_data_to_csv cfg env symbol (Some data) s = (Ret true, s1) ->
  fault env (CallOpenRead (path_join (DATA_DIR cfg) (csv_name symbol))) = None ->
  fault env (CallRead (path_join (DATA_DIR cfg) (csv_name symbol))) = None ->
  exists loaded s2,
    load_csv cfg env symbol s1 = (Ret (Some loaded), s2) /\
    length loaded = length data /\
    Forall2 same_numbers data loaded.
Proof.
  intros Hne Hinv Hsave Hopen Hread.
  destruct (save_data_to_csv_returns cfg env symbol (Some data) s)
    as (b & s' & Hrun & _ & _ & Hfile).
  rewrite Hsave in Hrun. injection Hrun as <- <-.
  destruct (Hfile eq_refl) as (d' & Hdir & Hlookup).
  change (default [] (Some data)) with data in Hlookup.
  unfold load_csv. unfold bind at 1. unfold get_fs at 1.
  rewrite Hdir. cbn [mbind option_bind]. rewrite Hlookup.
  unfold try_except, bind, attempt, ret. rewrite Hopen, Hread.
  rewrite text_mode_header. cbn [DictReader]. rewrite filter_candle_rows.
  rewrite (parse_rows_candle_rows data [] s1 Hinv).
  do 2 eexists. split; [reflexivity |]. cbn [app]. split.
  - by rewrite length_fmap.
  - clear. induction data as [| c data IH]; constructor; [| exact IH].
    unfold same_numbers. by cbn.
Qed.
End RoundTrip.

(** Three candles written and read back with the integer-valued floats. *)
Lemma csv_round_trip_witness :
  exists loaded s2,
    DataStorageManager.load_csv cfg_source env_ok "TCS"
      (MarketDataFetcher.save_data_to_csv cfg_source env_ok "TCS" (Some three_candles)
         (state_of loaded_manager fs_empty_dir)).2 = (Ret (Some loaded), s2) /\
    length loaded = length three_candles /\
    Forall2 same_numbers three_candles loaded.
Proof.
  apply (csv_round_trip cfg_source env_ok "TCS" three_candles
           (state_of loaded_manager fs_empty_dir)).
  - discriminate.
  - repeat constructor.
  - apply run_eq. vm_compute. reflexivity.
  - reflexivity.
  - reflexivity.
Defined.

(** ** Views a run keeps *)

Section Frames.
Context `{PyFloat} {X : Type} (Q : State -> X).

(** A view is kept by a sequence when each part keeps it. *)
Lemma frame_bind {A B} (m : M A) (k : A -> M B) (s : State) :
  Q (m s).2 = Q s ->
  (forall a s1, m s = (Ret a, s1) -> Q (k a s1).2 = Q s1) ->
  Q (bind m k s).2 = Q s.
Proof.
  unfold bind. destruct (m s) as [[a | e] s1]; cbn; intros Hm Hk; [| done].
  by rewrite (Hk a s1 eq_refl).
Qed.

Lemma frame_try_except {A} (m : M A) (h : exn -> M A) (s : State) :
  Q (m s).2 = Q s ->
  (forall e s1, m s = (Raise e, s1) -> Q (h e s1).2 = Q s1) ->
  Q (try_except m h s).2 = Q s.
Proof.
  unfold try_except. destruct (m s) as [[a | e] s1]; cbn; intros Hm Hh; [done |].
  by rewrite (Hh e s1 eq_refl).
Qed.
End Frames.

(** ** The workflow *)

Section Workflow.
Context `{PyFloat} (cfg : Config) (env : Env).

Import ZerodhaBacktestingWorkflow.

(** C2. When [is_authenticated()] is false, [fetch_and_save_data] returns
    [False] and has issued no network call and written nothing: the trace
    of calls and writes, the file system and the manager are as they were. *)
Theorem fetch_refused_when_unauthenticated (days : Z) (s : State) :
  fst (AuthenticationManager.is_authenticated s) = Ret false ->
  exists s', fetch_and_save_data cfg env days s = (Ret false, s') /\
             trace s' = trace s /\ fs s' = fs s /\ self s' = self s.
Proof.
  unfold fetch_and_save_data, AuthenticationManager.is_authenticated.
  unfold_monad. cbn [fst]. intros [= Hauth]. cbn beta iota. rewrite Hauth.
  cbn [negb]. eauto 10.
Qed.

(** One turn of the loop: the request for the symbol is issued when the
    window has a first day, and the save returns what [pair_succeeds] says. *)
Lemma fetch_then_save (symbol : string) (days : Z) (s : State) :
  is_Some (data_dir (fs s)) ->
  exists s',
    (data <- MarketDataFetcher.fetch_historical_data cfg env symbol days ;;
     MarketDataFetcher.save_data_to_csv cfg env symbol data) s
    = (Ret (pair_succeeds cfg env days symbol), s') /\
    advances s s' (if window_ok env days then [ticker_of cfg symbol] else [])
                  (if window_ok env days then [symbol] else []).
Proof.
  intros Hdir.
  destruct (fetch_historical_data_returns cfg env symbol days s)
    as (r & s1 & Hfetch & Hadv1 & Hfs & Hr).
  destruct (save_data_to_csv_returns cfg env symbol r s1)
    as (b & s2 & Hsave & Hadv2 & Hb & _).
  unfold bind. rewrite Hfetch, Hsave.
  exists s2. split.
  - f_equal. f_equal. rewrite Hb by (by rewrite Hfs).
    unfold pair_succeeds.
    destruct (window_ok env days); [| by subst r].
    cbn [andb].
    destruct (yf_download env (ticker_of cfg symbol) days) as [[| row rows] | e];
      [by subst r | | by subst r].
    destruct (forallb convertible (row :: rows)).
    + destruct Hr as (data & -> & Hlen).
      destruct data as [| c data]; [discriminate |].
      cbn [truthy default from_option id andb]. by rewrite Hlen.
    + by subst r.
  - pose proof (advances_trans _ _ _ _ _ _ _ Hadv1 Hadv2) as Hadv.
    by rewrite !app_nil_r in Hadv.
Qed.

(** The loop takes the symbols in order, one request each when the window
    has a first day, whatever the outcome of each turn, and counts the turns
    that succeeded. *)
Lemma fetch_loop_spec (days : Z) (symbols : list string) (n : nat) (s : State) :
  is_Some (data_dir (fs s)) ->
  exists s',
    fetch_loop cfg env days symbols n s
    = (Ret (n + length (filter (fun symbol => pair_succeeds cfg env days symbol = true)
                               symbols))%nat, s') /\
    advances s s' (if window_ok env days then ticker_of cfg <$> symbols else [])
                  (if window_ok env days then symbols else []).
Proof.
  revert n s. induction symbols as [| symbol symbols IH]; intros n s Hdir.
  - exists s. split; [| destruct (window_ok env days); apply advances_refl].
    cbn [fetch_loop]. unfold ret. rewrite filter_nil. cbn [length].
    by rewrite Nat.add_0_r.
  - destruct (fetch_then_save symbol days s Hdir) as (s1 & Hturn & Hadv1).
    cbn [fetch_loop].
    change (fetch_loop cfg env days (symbol :: symbols) n s) with
      ((data <- MarketDataFetcher.fetch_historical_data cfg env symbol days ;;
        saved <- MarketDataFetcher.save_data_to_csv cfg env symbol data ;;
        fetch_loop cfg env days symbols (if saved then S n else n)) s).
    assert (forall k : bool -> M nat,
              (data <- MarketDataFetcher.fetch_historical_data cfg env symbol days ;;
               saved <- MarketDataFetcher.save_data_to_csv cfg env symbol data ;;
               k saved) s = k (pair_succeeds cfg env days symbol) s1) as Hstep.
    { intros k. unfold bind in Hturn |- *.
      destruct (MarketDataFetcher.fetch_historical_data cfg env symbol days s)
        as [[r | e] s0]; [| discriminate].
      destruct (MarketDataFetcher.save_data_to_csv cfg env symbol r s0)
        as [[b | e] s0']; [| discriminate].
      by injection Hturn as -> ->. }
    rewrite Hstep.
    destruct (IH (if pair_succeeds cfg env days symbol then S n else n) s1)
      as (s2 & Hloop & Hadv2).
    { destruct Hadv1 as (_ & _ & Hkeep & _). by apply Hkeep. }
    exists s2. split.
    + rewrite Hloop. do 2 f_equal.
      destruct (pair_succeeds cfg env days symbol) eqn:Hok.
      * rewrite filter_cons_True by done. cbn [length]. lia.
      * rewrite filter_cons_False by (by rewrite Hok). lia.
    + pose proof (advances_trans _ _ _ _ _ _ _ Hadv1 Hadv2) as Hadv.
      by destruct (window_ok env days).
Qed.

(** A window of at most 719161 days back from today has a first day,
    whatever the clock reads: a year is one. *)
Lemma window_ok_back (days : Z) :
  0 <= days <= 719161 -> window_ok env days = true.
Proof.
  intros Hdays. pose proof (today_valid env) as Hvalid.
  apply Is_true_true, andb_true_iff in Hvalid as [Hlo Hhi].
  apply Z.leb_le in Hlo, Hhi.
  unfold epoch_eve_ordinal, MAXYEAR_ordinal in *.
  unfold window_ok, timedelta.
  destruct (Z.leb_spec (Z.abs days) 999999999); [| lia].
  unfold date_minus, MINYEAR_ordinal, MAXYEAR_ordinal.
  destruct (Z.leb_spec 1 (today env - days)); [| lia].
  destruct (Z.leb_spec (today env - days) 3652059); [done | lia].
Qed.

Lemma print_handles (m : message) (s : State) :
  handled_symbols (stdout (print m s).2)
  = (handled_symbols (stdout s) ++ handled_symbols [m])%list.
Proof. unfold print, handled_symbols. cbn [snd stdout]. by rewrite omap_app. Qed.

Lemma print_handles_none (m : message) (s : State) :
  handled_symbols [m] = [] ->
  handled_symbols (stdout (print m s).2) = handled_symbols (stdout s).
Proof. intros Hm. by rewrite print_handles, Hm, app_nil_r. Qed.

(** Fetching reports on no symbol. *)
Lemma fetch_historical_data_handles (symbol : string) (days : Z) (s : State) :
  handled_symbols (stdout (MarketDataFetcher.fetch_historical_data cfg env symbol days s).2)
  = handled_symbols (stdout s).
Proof.
  unfold MarketDataFetcher.fetch_historical_data.
  apply (frame_try_except (fun st => handled_symbols (stdout st))).
  - apply (frame_bind (fun st => handled_symbols (stdout st))); [done |].
    intros delta s1 _.
    apply (frame_bind (fun st => handled_symbols (stdout st))); [done |].
    intros from_date s2 _.
    apply (frame_bind (fun st => handled_symbols (stdout st)));
      [by apply print_handles_none |].
    intros _ s3 _.
    apply (frame_bind (fun st => handled_symbols (stdout st))); [done |].
    intros _ s4 _.
    apply (frame_bind (fun st => handled_symbols (stdout st))); [done |].
    intros data s5 _.
    destruct data as [| row rows].
    + apply (frame_bind (fun st => handled_symbols (stdout st)));
        [by apply print_handles_none | done].
    + apply (frame_bind (fun st => handled_symbols (stdout st)));
        [by apply print_handles_none |].
      intros _ s6 _.
      apply (frame_bind (fun st => handled_symbols (stdout st))).
      { match goal with |- context [MarketDataFetcher.convert_rows ?l ?a ?st] =>
          by destruct (convert_rows_pure l a st) as (o & -> & _) end. }
      intros result s7 _.
      apply (frame_bind (fun st => handled_symbols (stdout st))); done.
  - intros e s1 _.
    apply (frame_bind (fun st => handled_symbols (stdout st)));
      [by apply print_handles_none | done].
Qed.

Lemma open_csv_w_stdout (name : string) (s : State) :
  stdout (MarketDataFetcher.open_csv_w cfg env name s).2 = stdout s.
Proof.
  unfold MarketDataFetcher.open_csv_w. unfold_monad. cbn [fs].
  destruct (fault env _); [done |]. cbn [fs]. by destruct (data_dir (fs s)).
Qed.

Lemma write_row_stdout (name : string) (n : nat) (row : list string) (s : State) :
  stdout (MarketDataFetcher.write_row cfg env name n row s).2 = stdout s.
Proof.
  unfold MarketDataFetcher.write_row. unfold_monad. cbn [fs].
  by destruct (fault env _) as [[] |].
Qed.

Lemma write_rows_stdout (name : string) (data : list candle) (n : nat) (s : State) :
  stdout (MarketDataFetcher.write_rows cfg env name n data s).2 = stdout s.
Proof.
  revert n s. induction data as [| c data IH]; intros n s; [done |].
  cbn [MarketDataFetcher.write_rows].
  apply (frame_bind (fun st => stdout st)); [apply write_row_stdout |].
  intros _ s1 _. apply IH.
Qed.

(** Saving reports on its symbol, once, whatever the outcome. *)
Lemma save_data_to_csv_handles (symbol : string) (data : option (list candle))
                               (s : State) :
  handled_symbols (stdout (MarketDataFetcher.save_data_to_csv cfg env symbol data s).2)
  = (handled_symbols (stdout s) ++ [symbol])%list.
Proof.
  unfold MarketDataFetcher.save_data_to_csv.
  destruct (negb (truthy data)).
  { unfold bind, print, ret. cbn [snd stdout]. unfold handled_symbols.
    by rewrite omap_app. }
  pose proof (open_csv_w_stdout (csv_name symbol) s) as Hout1.
  unfold try_except, bind.
  destruct (MarketDataFetcher.open_csv_w cfg env (csv_name symbol) s)
    as [[[] | e] s1]; cbn [snd] in Hout1.
  2: { unfold print, ret. cbn [snd stdout]. unfold handled_symbols.
       by rewrite omap_app, Hout1. }
  pose proof (write_row_stdout (csv_name symbol) 0 fieldnames s1) as Hout2.
  destruct (MarketDataFetcher.write_row cfg env (csv_name symbol) 0 fieldnames s1)
    as [[[] | e] s2]; cbn [snd] in Hout2.
  2: { unfold print, ret. cbn [snd stdout]. unfold handled_symbols.
       by rewrite omap_app, Hout2, Hout1. }
  pose proof (write_rows_stdout (csv_name symbol) (default [] data) 1 s2) as Hout3.
  destruct (MarketDataFetcher.write_rows cfg env (csv_name symbol) 1 (default [] data) s2)
    as [[[] | e] s3]; cbn [snd] in Hout3;
    unfold print, ret; cbn [snd stdout]; unfold handled_symbols;
    by rewrite omap_app, Hout3, Hout2, Hout1.
Qed.

(** The loop reports on every symbol, once, in order. *)
Lemma fetch_loop_handles (days : Z) (symbols : list string) (n : nat) (s : State) :
  handled_symbols (stdout (fetch_loop cfg env days symbols n s).2)
  = (handled_symbols (stdout s) ++ symbols)%list.
Proof.
  revert n s. induction symbols as [| symbol symbols IH]; intros n s.
  - cbn. by rewrite app_nil_r.
  - cbn [fetch_loop]. unfold bind at 1.
    pose proof (fetch_historical_data_handles symbol days s) as Hfetch.
    destruct (fetch_historical_data_returns cfg env symbol days s)
      as (r & s1 & Hrun1 & _).
    rewrite Hrun1 in Hfetch |- *. cbn [snd] in Hfetch.
    unfold bind at 1.
    pose proof (save_data_to_csv_handles symbol r s1) as Hsave.
    destruct (save_data_to_csv_returns cfg env symbol r s1)
      as (b & s2 & Hrun2 & _).
    rewrite Hrun2 in Hsave |- *. cbn [snd] in Hsave.
    rewrite IH, Hsave, Hfetch, <- app_assoc. done.
Qed.

(** An authenticated run that gets past the creation of the directory. *)
Lemma fetch_and_save_data_run (days : Z) (s : State) :
  authenticated (self s) = true ->
  (data_dir (fs s) = None -> fault env (CallMakedirs (DATA_DIR cfg)) = None) ->
  exists s',
    fetch_and_save_data cfg env days s = (Ret true, s') /\
    handled_symbols (stdout s') = (handled_symbols (stdout s) ++ STOCKS cfg)%list /\
    fetched_symbols (stdout s')
    = (fetched_symbols (stdout s) ++
       if window_ok env days then STOCKS cfg else [])%list /\
    downloads (trace s')
    = (downloads (trace s) ++
       if window_ok env days then ticker_of cfg <$> STOCKS cfg else [])%list /\
    reported_counts (stdout s')
    = (reported_counts (stdout s) ++
       [(length (filter (fun symbol => pair_succeeds cfg env days symbol = true)
                        (STOCKS cfg)),
         length (STOCKS cfg))])%list.
Proof.
  intros Hauth Hmk.
  unfold fetch_and_save_data, AuthenticationManager.is_authenticated.
  unfold bind at 1. unfold bind at 1. unfold get_self, ret at 1.
  rewrite Hauth. cbn [negb].
  destruct (setup_directories_spec cfg env s) as (o & s1 & Hsetup & Hadv1 & Hres).
  assert (o = Ret true /\ is_Some (data_dir (fs s1))) as [-> Hdir].
  { destruct (data_dir (fs s)) as [d |]; [done |].
    by rewrite (Hmk eq_refl) in Hres. }
  assert (handled_symbols (stdout s1) = handled_symbols (stdout s)) as Hhandled1.
  { revert Hsetup. unfold DataStorageManager.setup_directories. unfold_monad.
    cbn [fs]. destruct (data_dir (fs s)); [by intros [= <-] |].
    destruct (fault env _); [done |]. intros [= <-]. cbn [stdout].
    unfold handled_symbols. by rewrite omap_app, app_nil_r. }
  unfold bind at 1. rewrite Hsetup.
  unfold bind at 1. unfold print at 1. unfold bind at 1.
  match goal with |- context [fetch_loop cfg env days ?l ?n ?st] =>
    assert (advances s1 st [] []) as Hadv2 by (by solve_advances);
    pose proof (fetch_loop_handles days l n st) as Hhandled;
    destruct (fetch_loop_spec days l n st) as (s2 & Hloop & Hadv3) end.
  { exact Hdir. }
  rewrite Hloop in Hhandled |- *. cbn [snd stdout] in Hhandled.
  unfold bind, print, ret.
  eexists. split; [reflexivity |].
  pose proof (advances_trans _ _ _ _ _ _ _
                (advances_trans _ _ _ _ _ _ _ Hadv1 Hadv2) Hadv3)
    as (_ & _ & _ & Hdl & Hsym & Hcount).
  cbn [stdout trace]. unfold fetched_symbols, reported_counts in *.
  split.
  { unfold handled_symbols in *. rewrite omap_app, Hhandled, omap_app.
    cbn [omap]. by rewrite !app_nil_r, Hhandled1. }
  rewrite !omap_app. cbn [omap]. rewrite Hsym, Hdl, Hcount.
  cbn [app]. rewrite ?app_nil_r. done.
Qed.

(** X21. An authenticated run of [fetch_and_save_data] that gets past the
    creation of the storage directory takes every configured symbol once, in
    order, whatever the outcome for each: [save_data_to_csv] reports on each
    of them.  When the window of [days] days has a first day every symbol is
    announced and requested from the provider once, in that order; when it
    has none, no request is issued.  The success count reported is the number
    of symbols for which the fetch-then-save pair succeeded, out of the number
    of configured symbols. *)
Theorem fetch_and_save_visits_all (days : Z) (s : State) :
  fst (AuthenticationManager.is_authenticated s) = Ret true ->
  (data_dir (fs s) = None -> fault env (CallMakedirs (DATA_DIR cfg)) = None) ->
  exists s',
    fetch_and_save_data cfg env days s = (Ret true, s') /\
    handled_symbols (stdout s') = (handled_symbols (stdout s) ++ STOCKS cfg)%list /\
    fetched_symbols (stdout s')
    = (fetched_symbols (stdout s) ++
       if window_ok env days then STOCKS cfg else [])%list /\
    downloads (trace s')
    = (downloads (trace s) ++
       if window_ok env days then ticker_of cfg <$> STOCKS cfg else [])%list /\
    reported_counts (stdout s')
    = (reported_counts (stdout s) ++
       [(length (filter (fun symbol => pair_succeeds cfg env days symbol = true)
                        (STOCKS cfg)),
         length (STOCKS cfg))])%list.
Proof.
  intros Hauth Hmk. apply fetch_and_save_data_run; [| exact Hmk].
  unfold AuthenticationManager.is_authenticated, bind, get_self, ret in Hauth.
  cbn [fst] in Hauth. by injection Hauth.
Qed.
End Workflow.

(** A manager without a token: the fetch is refused, nothing is requested
    and nothing is written. *)
Lemma fetch_refused_when_unauthenticated_witness :
  exists s',
    ZerodhaBacktestingWorkflow.fetch_and_save_data cfg_source env_ok 365
      (state_of blank_manager fs_empty) = (Ret false, s') /\
    trace s' = [] /\ fs s' = fs_empty /\ self s' = blank_manager.
Proof.
  apply (fetch_refused_when_unauthenticated cfg_source env_ok 365
           (state_of blank_manager fs_empty)).
  reflexivity.
Defined.

(** The ten symbols of [main.py], an environment without failures and a
    missing storage directory: all ten are taken and ten out of ten are
    reported.  With a window that reaches back before the year 1 all ten are
    taken too, none is requested, and none out of ten is reported. *)
Lemma fetch_and_save_visits_all_witness :
  (exists s',
     ZerodhaBacktestingWorkflow.fetch_and_save_data cfg_source env_ok 365
       (state_of loaded_manager fs_with_token) = (Ret true, s') /\
     handled_symbols (stdout s') = STOCKS cfg_source /\
     fetched_symbols (stdout s') = STOCKS cfg_source /\
     reported_counts (stdout s') = [(10%nat, 10%nat)]) /\
  (exists s',
     ZerodhaBacktestingWorkflow.fetch_and_save_data cfg_source env_ok 800000
       (state_of loaded_manager fs_with_token) = (Ret true, s') /\
     handled_symbols (stdout s') = STOCKS cfg_source /\
     downloads (trace s') = [] /\
     reported_counts (stdout s') = [(0%nat, 10%nat)]).
Proof.
  split.
  - destruct (fetch_and_save_visits_all cfg_source env_ok 365
                (state_of loaded_manager fs_with_token))
      as (s' & Hrun & Hhandled & Hsym & _ & Hcount).
    + reflexivity.
    + intros _. reflexivity.
    + exists s'. split; [exact Hrun |]. split; [| split].
      * rewrite Hhandled. reflexivity.
      * rewrite Hsym. reflexivity.
      * rewrite Hcount. vm_compute. reflexivity.
  - destruct (fetch_and_save_visits_all cfg_source env_ok 800000
                (state_of loaded_manager fs_with_token))
      as (s' & Hrun & Hhandled & _ & Hdl & Hcount).
    + reflexivity.
    + intros _. reflexivity.
    + exists s'. split; [exact Hrun |]. split; [| split].
      * rewrite Hhandled. reflexivity.
      * rewrite Hdl. reflexivity.
      * rewrite Hcount. vm_compute. reflexivity.
Defined.

(** The scenario of the specification: one symbol X, three rows from the
    provider.  One file [X.csv] with four rows is written, and one out of one
    is reported. *)
Lemma fetch_and_save_scenario :
  let r := ZerodhaBacktestingWorkflow.fetch_and_save_data cfg_x env_ok 30
             (state_of loaded_manager fs_empty_dir) in
  r.1 = Ret true /\
  reported_counts (stdout r.2) = [(1%nat, 1%nat)] /\
  (fun d => (map_to_list d).*1) <$> data_dir (fs r.2) = Some ["X.csv"] /\
  (data_dir (fs r.2) ≫= fun d => length <$> d !! "X.csv") = Some 4%nat.
Proof. cbv zeta. vm_compute. done. Qed.

(** C4, on the code.  A failure of [os.makedirs] raises out of
    [setup_directories] and out of [fetch_and_save_data], and a failure of
    [os.listdir] raises out of [get_status_report]: neither has a handler. *)
Lemma uncaught_directory_errors :
  fst (DataStorageManager.setup_directories cfg_source env_readonly
         (state_of loaded_manager fs_with_token)) = Raise OSError /\
  fst (ZerodhaBacktestingWorkflow.fetch_and_save_data cfg_source env_readonly 365
         (state_of loaded_manager fs_with_token)) = Raise OSError /\
  fst (DataStorageManager.get_status_report cfg_source env_readonly
         (state_of loaded_manager fs_empty_dir)) = Raise OSError.
Proof. vm_compute. done. Qed.

(** C8, on the code.  An authenticated workflow, no storage directory, and
    [os.makedirs] failing: [fetch_and_save_data] raises before its loop.  No
    symbol is taken, no request is issued and no count is reported, where the
    claim has every configured symbol visited and a count reported for every
    authenticated run. *)
Lemma fetch_and_save_stops_at_makedirs :
  fst (AuthenticationManager.is_authenticated (state_of loaded_manager fs_with_token))
  = Ret true /\
  fst (ZerodhaBacktestingWorkflow.fetch_and_save_data cfg_source env_readonly 365
         (state_of loaded_manager fs_with_token)) = Raise OSError /\
  handled_symbols
    (stdout (ZerodhaBacktestingWorkflow.fetch_and_save_data cfg_source env_readonly 365
               (state_of loaded_manager fs_with_token)).2) = [] /\
  fetched_symbols
    (stdout (ZerodhaBacktestingWorkflow.fetch_and_save_data cfg_source env_readonly 365
               (state_of loaded_manager fs_with_token)).2) = [] /\
  downloads
    (trace (ZerodhaBacktestingWorkflow.fetch_and_save_data cfg_source env_readonly 365
              (state_of loaded_manager fs_with_token)).2) = [] /\
  reported_counts
    (stdout (ZerodhaBacktestingWorkflow.fetch_and_save_data cfg_source env_readonly 365
               (state_of loaded_manager fs_with_token)).2) = [].
Proof. vm_compute. done. Qed.

(** ** The analysis *)

Section Analysis.
Context `{PyFloat} (cfg : Config) (env : Env).

Lemma init_returns (s : State) :
  exists s', AuthenticationManager.__init__ cfg env s = (Ret tt, s').
Proof.
  unfold AuthenticationManager.__init__. unfold bind at 1. unfold set_self at 1.
  cbn beta iota. unfold bind at 1.
  match goal with |- context [AuthenticationManager.load_existing_token cfg env ?st] =>
    destruct (load_existing_token_returns cfg env st) as (b & s1 & Hload & _) end.
  rewrite Hload. unfold ret. eauto.
Qed.

(** [min], [max] and the last element are total on a non-empty list. *)
Lemma extremes_of_nonempty (x : float) (xs : list float) (s : State) :
  exists lo hi cur,
    py_min (x :: xs) s = (Ret lo, s) /\ py_max (x :: xs) s = (Ret hi, s) /\
    py_last (x :: xs) s = (Ret cur, s).
Proof.
  unfold py_min, py_max, py_last, or_raise, ret.
  destruct (last (x :: xs)) as [cur |] eqn:Hlast.
  - eauto 10.
  - by apply last_None in Hlast.
Qed.

Lemma analyze_symbol_returns (symbol : string) (s : State) :
  exists s', analyze_symbol cfg env symbol s = (Ret tt, s').
Proof.
  unfold analyze_symbol, ZerodhaBacktestingWorkflow.load_data.
  destruct (load_csv_returns cfg env symbol s) as (r & s1 & Hload & _).
  unfold bind at 1. rewrite Hload.
  destruct r as [[| c cs] |]; cbn [truthy]; [by eexists | | by eexists].
  cbn [default from_option id fmap list_fmap].
  destruct (extremes_of_nonempty (c_close c) (c_close <$> cs) s1)
    as (lo & hi & cur & Hmin & Hmax & Hlast).
  unfold bind. rewrite Hmin, Hmax, Hlast. unfold print. eauto.
Qed.

Lemma analyze_loop_returns (symbols : list string) (s : State) :
  exists s', analyze_loop cfg env symbols s = (Ret tt, s').
Proof.
  revert s. induction symbols as [| symbol symbols IH]; intros s.
  - by eexists.
  - cbn [analyze_loop]. unfold bind.
    destruct (analyze_symbol_returns symbol s) as (s1 & ->). apply IH.
Qed.

(** C10. [analyze_data] completes without raising, whatever the files
    are: [min], [max] and the last element, which raise on an empty list,
    are evaluated only behind the truthiness guard; a symbol whose load
    yields [None] or the empty list is skipped, the state being left as
    the load left it. *)
Theorem analyze_data_completes (s : State) :
  (exists s', analyze_data cfg env s = (Ret tt, s')) /\
  (forall symbol r s1,
      ZerodhaBacktestingWorkflow.load_data cfg env symbol s = (Ret r, s1) ->
      truthy r = false ->
      analyze_symbol cfg env symbol s = (Ret tt, s1)).
Proof.
  split.
  - unfold analyze_data, ZerodhaBacktestingWorkflow.__init__.
    unfold bind at 1. unfold print at 1. cbn beta iota. unfold bind at 1.
    match goal with |- context [AuthenticationManager.__init__ cfg env ?st] =>
      destruct (init_returns st) as (s1 & ->) end.
    apply analyze_loop_returns.
  - intros symbol r s1 Hload Hfalse. unfold analyze_symbol, bind.
    rewrite Hload, Hfalse. reflexivity.
Qed.
End Analysis.

(** A directory with a header-only file, a malformed file, a well-formed
    file and seven absent files: the analysis completes, and the header-only
    file is skipped. *)
Lemma analyze_data_completes_witness :
  fst (analyze_data cfg_source env_ok (state_of blank_manager fs_mixed)) = Ret tt /\
  fst (analyze_symbol cfg_source env_ok "INFY" (state_of blank_manager fs_mixed))
  = Ret tt.
Proof.
  destruct (analyze_data_completes cfg_source env_ok (state_of blank_manager fs_mixed))
    as ((s' & Hrun) & Hskip).
  split.
  - rewrite Hrun. reflexivity.
  - rewrite (Hskip "INFY" (Some [])
               (ZerodhaBacktestingWorkflow.load_data cfg_source env_ok "INFY"
                  (state_of blank_manager fs_mixed)).2).
    + reflexivity.
    + apply run_eq. reflexivity.
    + reflexivity.
Defined.

(** ** The status report *)

(** The example of the specification: symbols A, B, C and the file [A.csv];
    a file that does not end in [.csv] is not counted.  The report lists B
    and C, which is the configured set minus the stems. *)
Lemma status_report_example :
  reported_missing
    (stdout (DataStorageManager.get_status_report cfg_abc env_ok
               (state_of blank_manager fs_a)).2) = [["B"; "C"]] /\
  sorted (elements (missing_by_stem cfg_abc ["A.csv"; "notes.txt"])) = ["B"; "C"].
Proof. vm_compute. done. Qed.

(** C7, on the code.  With the symbols of [main.py] and the single file
    [TCS.csv.csv] in the storage directory, [get_status_report] leaves TCS out
    of the missing list, because [replace] removes every occurrence of [.csv];
    the stem of that file is [TCS.csv], so the configured set minus the stems
    still holds TCS. *)
Lemma status_report_double_extension :
  reported_missing
    (stdout (DataStorageManager.get_status_report cfg_source env_ok
               (state_of blank_manager fs_double_extension)).2)
  = [["BHARTIARTL"; "HDFCBANK"; "HINDUNILVR"; "ICICIBANK"; "INFY"; "ITC"; "LT";
      "RELIANCE"; "SBIN"]] /\
  sorted (elements (DataStorageManager.missing cfg_source ["TCS.csv.csv"]))
  = ["BHARTIARTL"; "HDFCBANK"; "HINDUNILVR"; "ICICIBANK"; "INFY"; "ITC"; "LT";
     "RELIANCE"; "SBIN"] /\
  stem "TCS.csv.csv" = "TCS.csv" /\
  sorted (elements (missing_by_stem cfg_source ["TCS.csv.csv"]))
  = ["BHARTIARTL"; "HDFCBANK"; "HINDUNILVR"; "ICICIBANK"; "INFY"; "ITC"; "LT";
     "RELIANCE"; "SBIN"; "TCS"].
Proof. vm_compute. done. Qed.


(** * Further properties of the code *)

(** ** Fetching *)

Section FetchEffects.
Context `{PyFloat} (cfg : Config) (env : Env).

Import MarketDataFetcher.



End FetchEffects.

(** X2. With the configuration of [main.py] the ticker asked of the provider
    is the symbol followed by [.NS], for a symbol listed in [TICKER_MAP] as
    for any other: the map and the fallback agree. *)
Theorem ticker_of_source (key secret symbol : string) :
  ticker_of (Config_source key secret) symbol = symbol +:+ ".NS".
Proof.
  unfold ticker_of. cbn [TICKER_MAP Config_source].
  destruct (list_to_map _ !! symbol) as [t |] eqn:Hlookup; [| done].
  apply elem_of_list_to_map_2 in Hlookup. cbn [default from_option id].
  repeat (apply elem_of_cons in Hlookup as [[= -> ->] | Hlookup]; [done |]).
  by apply elem_of_nil in Hlookup.
Qed.

(** ** Saving *)

Section SaveEffects.
Context `{PyFloat} (cfg : Config) (env : Env).

Import MarketDataFetcher.

(** The state once the file of [name] has been opened for writing. *)
Lemma open_csv_w_run (name : string) (s : State) (d : gmap string csv_file) :
  data_dir (fs s) = Some d ->
  fault env (CallOpenWrite (path_join (DATA_DIR cfg) name)) = None ->
  exists s1, open_csv_w cfg env name s = (Ret tt, s1) /\
             self s1 = self s /\ token_file (fs s1) = token_file (fs s) /\
             data_dir (fs s1) = Some (<[name := []]> d).
Proof.
  intros Hdir Hopen. unfold open_csv_w. unfold_monad. cbn [fs].
  rewrite Hopen. cbn [fs]. rewrite Hdir. eauto.
Qed.

Lemma write_row_run (name : string) (n : nat) (row : list string) (s : State) :
  exists o s1, write_row cfg env name n row s = (o, s1) /\
               self s1 = self s /\ token_file (fs s1) = token_file (fs s) /\
               match fault env (CallWrite (path_join (DATA_DIR cfg) name) n) with
               | Some e =>
                   o = Raise e /\
                   data_dir (fs s1)
                   = alter (fun rows =>
                              match e with
                              | OSError => left_on_disk env
                                             (path_join (DATA_DIR cfg) name) rows
                              | _ => rows
                              end) name <$> data_dir (fs s)
               | None => o = Ret tt /\
                         data_dir (fs s1)
                         = alter (fun rows => (rows ++ [row])%list) name <$> data_dir (fs s)
               end.
Proof.
  unfold write_row. unfold_monad. cbn [fs].
  destruct (fault env _) as [[] |]; cbn [fs]; do 2 eexists;
    (split; [reflexivity |]); cbn [self fs]; repeat split; try done;
    destruct (data_dir (fs s)) as [d |]; cbn; try done;
    f_equal; symmetry; by apply alter_id.
Qed.


Lemma bind_ret {A B} (m : M A) (k : A -> M B) (s s1 : State) (a : A) :
  m s = (Ret a, s1) -> bind m k s = k a s1.
Proof. intros Hm. unfold bind. by rewrite Hm. Qed.


(** X3. With the storage directory present, a non-empty series, a file that
    opens and writes that all go through, [save_data_to_csv] returns [True]
    and the file of the symbol holds exactly the header followed by one row
    per candle, whatever it held before; the other files, the credential file
    and the manager are untouched. *)
Theorem save_data_to_csv_written (symbol : string) (rows : list candle) (s : State)
                                 (d : gmap string csv_file) :
  data_dir (fs s) = Some d ->
  rows <> [] ->
  fault env (CallOpenWrite (path_join (DATA_DIR cfg) (csv_name symbol))) = None ->
  writes_ok env (path_join (DATA_DIR cfg) (csv_name symbol)) 0 (S (length rows)) = true ->
  exists s', save_data_to_csv cfg env symbol (Some rows) s = (Ret true, s') /\
             self s' = self s /\ token_file (fs s') = token_file (fs s) /\
             data_dir (fs s')
             = Some (<[csv_name symbol := fieldnames :: (candle_row <$> rows)]> d).
Proof.
  intros Hdir Hne Hopen Hok. unfold save_data_to_csv.
  assert (truthy (Some rows) = true) as Htruthy by (by destruct rows).
  rewrite Htruthy. cbn [negb default from_option id].
  destruct (open_csv_w_run (csv_name symbol) s d Hdir Hopen)
    as (s1 & Hrun1 & Hself1 & Htok1 & Hdir1).
  destruct (write_row_run (csv_name symbol) 0 fieldnames s1)
    as (o2 & s2 & Hrun2 & Hself2 & Htok2 & Hres2).
  unfold writes_ok in Hok. cbn [seq forallb] in Hok.
  apply andb_true_iff in Hok as [H0 Hok]. apply bool_decide_eq_true in H0.
  rewrite H0 in Hres2. destruct Hres2 as [-> Hdir2].
  destruct (write_rows_spec cfg env (csv_name symbol) rows 1 s2)
    as (o3 & s3 & Hrun3 & Hadv3 & Hraised3 & Hdir3).
  unfold writes_ok in Hraised3. rewrite Hok in Hraised3.
  destruct o3 as [[] | e]; [| discriminate].
  unfold try_except.
  rewrite (bind_ret _ _ _ _ _ Hrun1), (bind_ret _ _ _ _ _ Hrun2),
    (bind_ret _ _ _ _ _ Hrun3).
  unfold bind, print, ret. eexists. split; [reflexivity |]. cbn [self fs].
  destruct Hadv3 as (Hself3 & Htok3 & _).
  split; [congruence |]. split; [congruence |].
  rewrite (Hdir3 eq_refl), Hdir2, Hdir1. cbn [fmap option_fmap option_map].
  by rewrite !alter_insert_eq.
Qed.


(** X5. Without data ([None] or the empty list), without a storage
    directory, or when the file does not open, [save_data_to_csv] returns
    [False] and leaves the file system and the manager as they were. *)
Theorem save_data_to_csv_refused (symbol : string) (data : option (list candle))
                                 (s : State) :
  truthy data = false \/ data_dir (fs s) = None \/
  fault env (CallOpenWrite (path_join (DATA_DIR cfg) (csv_name symbol))) <> None ->
  exists s', save_data_to_csv cfg env symbol data s = (Ret false, s') /\
             fs s' = fs s /\ self s' = self s.
Proof.
  intros Hwhy. unfold save_data_to_csv.
  destruct (truthy data) eqn:Htruthy; cbn [negb].
  2: { unfold_monad. eauto. }
  unfold try_except, open_csv_w. unfold_monad. cbn [fs].
  destruct (fault env (CallOpenWrite _)) as [e |] eqn:Hopen; [cbn; eauto |].
  cbn [fs]. destruct (data_dir (fs s)) as [d |] eqn:Hdir; [| cbn; eauto].
  destruct Hwhy as [? | [? | ?]]; done.
Qed.
End SaveEffects.

(** Three candles saved into an empty storage directory. *)
Lemma save_data_to_csv_written_witness :
  exists s', MarketDataFetcher.save_data_to_csv cfg_source env_ok "TCS"
               (Some three_candles) (state_of loaded_manager fs_empty_dir)
             = (Ret true, s') /\
             self s' = loaded_manager /\ token_file (fs s') = Some "old-token" /\
             data_dir (fs s')
             = Some (<["TCS.csv" := fieldnames :: (candle_row <$> three_candles)]> ∅).
Proof.
  apply (save_data_to_csv_written cfg_source env_ok "TCS" three_candles
           (state_of loaded_manager fs_empty_dir) ∅).
  - reflexivity.
  - discriminate.
  - reflexivity.
  - reflexivity.
Defined.


(** The fetch failed: nothing is saved. *)
Lemma save_data_to_csv_refused_witness :
  exists s', MarketDataFetcher.save_data_to_csv cfg_source env_ok "TCS" None
               (state_of loaded_manager fs_empty_dir) = (Ret false, s') /\
             fs s' = fs_empty_dir /\ self s' = loaded_manager.
Proof.
  apply (save_data_to_csv_refused cfg_source env_ok "TCS" None
           (state_of loaded_manager fs_empty_dir)).
  left. reflexivity.
Defined.

(** ** Loading *)

Section LoadEffects.
Context `{F : PyFloat} `{!PyFloatRepr F} (cfg : Config) (env : Env).

Import DataStorageManager.

(** X6. A file that is empty, or holds a header followed by blank lines
    only, loads as the empty list, not as [None], and nothing but the output
    changes: absence of rows is not a failure for [load_csv], while
    [save_data_to_csv] refuses to write such a series. *)
Theorem load_csv_no_rows (symbol : string) (s : State) (tbl : csv_file) :
  data_dir (fs s) ≫= (fun d => d !! csv_name symbol) = Some tbl ->
  Forall (fun r => r = []) (tail tbl) ->
  fault env (CallOpenRead (path_join (DATA_DIR cfg) (csv_name symbol))) = None ->
  fault env (CallRead (path_join (DATA_DIR cfg) (csv_name symbol))) = None ->
  load_csv cfg env symbol s = (Ret (Some []), s) /\
  fst (MarketDataFetcher.save_data_to_csv cfg env symbol (Some []) s) = Ret false.
Proof.
  intros Hfile Hblank Hopen Hread. split; [| reflexivity].
  unfold load_csv. unfold bind at 1. unfold get_fs at 1. rewrite Hfile.
  unfold try_except, bind, attempt, ret. rewrite Hopen, Hread.
  assert (DictReader (text_mode tbl) = []) as ->; [| reflexivity].
  destruct tbl as [| names rows]; [done |]. unfold text_mode.
  cbn [fmap list_fmap DictReader tail] in *.
  fold (fmap (M := list) (fun row : list string => universal_newlines <$> row) rows).
  assert (filter (fun r : list string => r ≠ [])
            ((fun row : list string => universal_newlines <$> row) <$> rows) = [])
    as ->; [| done].
  clear Hfile. induction Hblank as [| r rows Hr _ IH]; [done |]. subst r.
  cbn [fmap list_fmap]. rewrite filter_cons_False; [exact IH |].
  intros Hne. by apply Hne.
Qed.



End LoadEffects.

(** A header and two blank lines. *)
Lemma load_csv_no_rows_witness :
  DataStorageManager.load_csv cfg_source env_ok "TCS"
    (state_of blank_manager
       {| token_file := None;
          data_dir := Some {[ "TCS.csv" := [fieldnames; []; []] ]} |})
  = (Ret (Some []),
     state_of blank_manager
       {| token_file := None;
          data_dir := Some {[ "TCS.csv" := [fieldnames; []; []] ]} |}) /\
  fst (MarketDataFetcher.save_data_to_csv cfg_source env_ok "TCS" (Some [])
         (state_of blank_manager
            {| token_file := None;
               data_dir := Some {[ "TCS.csv" := [fieldnames; []; []] ]} |}))
  = Ret false.
Proof.
  apply (load_csv_no_rows cfg_source env_ok "TCS" _ [fieldnames; []; []]).
  - vm_compute. reflexivity.
  - by repeat constructor.
  - reflexivity.
  - reflexivity.
Defined.


(** ** The credential *)

Section CredentialEffects.
Context `{PyFloat} (cfg : Config) (env : Env).

Import AuthenticationManager.

(** X8. [load_existing_token] never raises, writes nothing and issues no
    call.  It returns [True] exactly when the credential file exists and
    neither the read nor the installation on the client fails; the token it
    stores and installs is then the content of the file, as text mode reads
    it, with surrounding white space stripped, whatever that content is.
    Without a credential file it changes nothing at all. *)
Theorem load_existing_token_effects (s : State) :
  exists b s',
    load_existing_token cfg env s = (Ret b, s') /\
    fs s' = fs s /\ trace s' = trace s /\
    (b = true <->
     is_Some (token_file (fs s)) /\
     fault env (CallOpenRead (TOKEN_FILE cfg)) = None /\
     fault env (CallRead (TOKEN_FILE cfg)) = None /\
     fault env CallSetAccessToken = None) /\
    (b = true ->
     forall content, token_file (fs s) = Some content ->
       access_token (self s') = PyStr (py_strip (universal_newlines content)) /\
       installed_token (kite (self s'))
       = PyStr (py_strip (universal_newlines content)) /\
       authenticated (self s') = true) /\
    (token_file (fs s) = None -> s' = s).
Proof.
  unfold load_existing_token, kite_set_access_token, set_access_token_attr,
    set_authenticated.
  unfold_monad. cbn [fs].
  destruct (token_file (fs s)) as [content |] eqn:Hfile.
  2: { do 2 eexists. split; [reflexivity |]. repeat split; try done.
       intros [[x Hx] _]. discriminate Hx. }
  destruct (fault env (CallOpenRead _)) as [e1 |]; cbn.
  { do 2 eexists. split; [reflexivity |]. repeat split; try done.
    by intros (_ & ? & _). }
  destruct (fault env (CallRead _)) as [e2 |]; cbn.
  { do 2 eexists. split; [reflexivity |]. repeat split; try done.
    by intros (_ & _ & ? & _). }
  destruct (fault env CallSetAccessToken) as [e3 |]; cbn.
  { do 2 eexists. split; [reflexivity |]. repeat split; try done.
    by intros (_ & _ & _ & ?). }
  do 2 eexists. split; [reflexivity |]. cbn. repeat split; try done.
  all: by simplify_eq.
Qed.

End CredentialEffects.


(** A file with leading and trailing white space: the token loaded is the
    text between. *)
Lemma load_existing_token_effects_witness :
  exists s',
    AuthenticationManager.load_existing_token cfg_source env_ok
      (state_of blank_manager {| token_file := Some "  abc
"; data_dir := None |}) = (Ret true, s') /\
    access_token (self s') = PyStr "abc" /\
    installed_token (kite (self s')) = PyStr "abc".
Proof.
  destruct (load_existing_token_effects cfg_source env_ok
              (state_of blank_manager {| token_file := Some "  abc
"; data_dir := None |}))
    as (b & s' & Hrun & _ & _ & Hiff & Htok & _).
  assert (b = true) as ->.
  { apply Hiff. repeat split; by eauto. }
  exists s'. split; [exact Hrun |].
  destruct (Htok eq_refl _ eq_refl) as (Ha & Hi & _). split; [exact Ha | exact Hi].
Defined.

(** ** The workflow without a token *)

Section AuthenticateEffects.
Context `{PyFloat} (cfg : Config) (env : Env).

Import ZerodhaBacktestingWorkflow.

(** X10. [authenticate] treats the empty string like a missing token: it
    prints the login URL and the instructions and returns [False], or raises
    what the SDK raised while building the URL; either way it issues no
    exchange, and the manager and the file system stay as they were. *)
Theorem authenticate_without_token (s : State) :
  authenticate cfg env (Some "") s = authenticate cfg env None s /\
  exists o s',
    authenticate cfg env None s = (o, s') /\
    self s' = self s /\ fs s' = fs s /\ trace s' = trace s /\
    match fault env CallLoginUrl with
    | Some e => o = Raise e
    | None => o = Ret false
    end.
Proof.
  split; [reflexivity |].
  unfold authenticate, AuthenticationManager.get_login_url. unfold_monad. cbn.
  destruct (fault env CallLoginUrl); cbn; eauto 10.
Qed.
End AuthenticateEffects.

(** ** The storage directory *)

Section DirectoryEffects.
Context `{PyFloat} (cfg : Config) (env : Env).

Import DataStorageManager.

(** X11. [setup_directories] is idempotent: once it has returned, a second
    call returns [True] and changes nothing; and when the directory exists
    beforehand the first call changes nothing either.  A directory it creates
    is empty. *)
Theorem setup_directories_idempotent (s s1 : State) (b : bool) :
  setup_directories cfg env s = (Ret b, s1) ->
  b = true /\
  setup_directories cfg env s1 = (Ret true, s1) /\
  (is_Some (data_dir (fs s)) -> s1 = s) /\
  (data_dir (fs s) = None -> data_dir (fs s1) = Some ∅).
Proof.
  unfold setup_directories. unfold_monad. cbn [fs].
  destruct (data_dir (fs s)) as [d |] eqn:Hdir.
  - intros [= <- <-]. rewrite Hdir. repeat split; try done.
  - destruct (fault env (CallMakedirs _)); cbn; [done |].
    intros [= <- <-]. cbn. repeat split; try done.
Qed.

Lemma report_files_reads_only (d : gmap string csv_file) (names : list string)
                              (s : State) :
  exists o s', report_files cfg env d names s = (o, s') /\
               self s' = self s /\ fs s' = fs s /\ trace s' = trace s.
Proof.
  revert s. induction names as [| name names IH]; intros s; cbn [report_files].
  - unfold ret. eauto 10.
  - unfold bind at 1. unfold attempt at 1.
    destruct (fault env (CallGetsize _)); [unfold raise; eauto 10 |].
    unfold ret at 1. unfold bind at 1. unfold attempt at 1.
    destruct (fault env (CallOpenRead _)); [unfold raise; eauto 10 |].
    unfold ret at 1. unfold bind at 1. unfold attempt at 1.
    destruct (fault env (CallRead _)); [unfold raise; eauto 10 |].
    unfold ret at 1. unfold bind at 1. unfold print at 1.
    match goal with |- context [report_files cfg env d names ?st] =>
      destruct (IH st) as (o & s' & -> & Hself & Hfs & Htrace) end.
    eauto 10.
Qed.

(** X12. [get_status_report] is read-only: whether it returns or raises, and
    whatever the environment does, the manager, the file system and the trace
    of network calls and writes are as before.  When the storage directory is
    absent it returns normally without listing anything. *)
Theorem get_status_report_reads_only (s : State) :
  exists o s',
    get_status_report cfg env s = (o, s') /\
    self s' = self s /\ fs s' = fs s /\ trace s' = trace s /\
    (data_dir (fs s) = None -> o = Ret tt).
Proof.
  unfold get_status_report. unfold bind at 1. unfold print at 1.
  unfold bind at 1. unfold get_fs at 1. cbn [fs].
  destruct (data_dir (fs s)) as [d |].
  2: { unfold_monad. do 2 eexists. split; [reflexivity |]. by split_and!. }
  unfold bind at 1. unfold attempt at 1.
  destruct (fault env (CallListdir _)).
  { unfold raise. do 2 eexists. split; [reflexivity |]. by split_and!. }
  unfold ret at 1. unfold bind at 1. unfold print at 1. unfold bind at 1.
  match goal with |- context [report_files cfg env d ?l ?st] =>
    destruct (report_files_reads_only d l st) as (o & s' & -> & Hself & Hfs & Htrace) end.
  cbn [self fs trace] in *.
  destruct o as [[] | e]; [| do 2 eexists; split; [reflexivity |]; by split_and!].
  destruct (decide _); unfold print; do 2 eexists; (split; [reflexivity |]);
    by split_and!.
Qed.
End DirectoryEffects.

(** The directory is created by the first call; the second finds it. *)
Lemma setup_directories_idempotent_witness :
  DataStorageManager.setup_directories cfg_source env_ok
    (DataStorageManager.setup_directories cfg_source env_ok
       (state_of blank_manager fs_empty)).2
  = (Ret true,
     (DataStorageManager.setup_directories cfg_source env_ok
        (state_of blank_manager fs_empty)).2).
Proof.
  apply (setup_directories_idempotent cfg_source env_ok
           (state_of blank_manager fs_empty) _ true).
  apply run_eq. vm_compute. reflexivity.
Defined.

(** ** What a run leaves alone *)

Section FileFrame.
Context `{PyFloat} (cfg : Config) (env : Env) (other : string).

Import MarketDataFetcher.

Lemma open_csv_w_outside (name : string) (s : State) :
  other <> name ->
  outside_view other (open_csv_w cfg env name s).2 = outside_view other s.
Proof.
  intros Hne. unfold open_csv_w, outside_view, file_at. unfold_monad. cbn [fs].
  destruct (fault env _); [done |]. cbn [fs].
  destruct (data_dir (fs s)) as [d |] eqn:Hdir; cbn; rewrite ?Hdir; [| done].
  cbn. by rewrite lookup_insert_ne.
Qed.

Lemma write_row_outside (name : string) (n : nat) (row : list string) (s : State) :
  other <> name ->
  outside_view other (write_row cfg env name n row s).2 = outside_view other s.
Proof.
  intros Hne. unfold write_row, outside_view, file_at. unfold_monad. cbn [fs].
  destruct (fault env _) as [[] |]; cbn; try done;
    (destruct (data_dir (fs s)) as [d |]; cbn; [| done]);
    by rewrite lookup_alter_ne.
Qed.

Lemma write_rows_outside (name : string) (data : list candle) (n : nat) (s : State) :
  other <> name ->
  outside_view other (write_rows cfg env name n data s).2 = outside_view other s.
Proof.
  intros Hne. revert n s. induction data as [| c data IH]; intros n s; [done |].
  cbn [write_rows]. apply frame_bind; [by apply write_row_outside |].
  intros _ s1 _. apply IH.
Qed.

Lemma save_data_to_csv_outside (symbol : string) (data : option (list candle))
                               (s : State) :
  other <> csv_name symbol ->
  outside_view other (save_data_to_csv cfg env symbol data s).2 = outside_view other s.
Proof.
  intros Hne. unfold save_data_to_csv.
  destruct (negb (truthy data)); [done |].
  apply frame_try_except; [| done].
  apply frame_bind; [by apply open_csv_w_outside |]. intros _ s1 _.
  apply frame_bind; [by apply write_row_outside |]. intros _ s2 _.
  apply frame_bind; [by apply write_rows_outside |]. done.
Qed.

Lemma fetch_historical_data_outside (symbol : string) (days : Z) (s : State) :
  outside_view other (fetch_historical_data cfg env symbol days s).2
  = outside_view other s.
Proof.
  destruct (fetch_historical_data_returns cfg env symbol days s)
    as (r & s1 & -> & (Hself & _) & Hfs & _).
  unfold outside_view, file_at. cbn [snd]. by rewrite Hself, Hfs.
Qed.

Lemma fetch_loop_outside (days : Z) (symbols : list string) (n : nat) (s : State) :
  other ∉ csv_name <$> symbols ->
  outside_view other (ZerodhaBacktestingWorkflow.fetch_loop cfg env days symbols n s).2
  = outside_view other s.
Proof.
  revert n s. induction symbols as [| symbol symbols IH]; intros n s Hout; [done |].
  cbn [ZerodhaBacktestingWorkflow.fetch_loop].
  apply not_elem_of_cons in Hout as [Hne Hout].
  apply frame_bind; [apply fetch_historical_data_outside |]. intros data s1 _.
  apply frame_bind; [by apply save_data_to_csv_outside |]. intros saved s2 _.
  by apply IH.
Qed.

Lemma setup_directories_outside (s : State) :
  outside_view other (DataStorageManager.setup_directories cfg env s).2
  = outside_view other s.
Proof.
  unfold DataStorageManager.setup_directories, outside_view, file_at.
  unfold_monad. cbn [fs].
  destruct (data_dir (fs s)) as [d |] eqn:Hdir.
  - cbn [snd]. by rewrite Hdir.
  - destruct (fault env _); cbn; rewrite ?Hdir; cbn; by rewrite ?lookup_empty.
Qed.

(** X13. Whatever happens during [fetch_and_save_data], return or raise, the
    manager and the credential file are as before, and so is every file of
    the storage directory that is not the CSV file of a configured symbol. *)
Theorem fetch_and_save_data_outside (days : Z) (s : State) :
  other ∉ csv_name <$> STOCKS cfg ->
  self (ZerodhaBacktestingWorkflow.fetch_and_save_data cfg env days s).2 = self s /\
  token_file (fs (ZerodhaBacktestingWorkflow.fetch_and_save_data cfg env days s).2)
  = token_file (fs s) /\
  file_at (ZerodhaBacktestingWorkflow.fetch_and_save_data cfg env days s).2 other
  = file_at s other.
Proof.
  intros Hout.
  assert (outside_view other
            (ZerodhaBacktestingWorkflow.fetch_and_save_data cfg env days s).2
          = outside_view other s) as Hview.
  { unfold ZerodhaBacktestingWorkflow.fetch_and_save_data.
    apply frame_bind; [done |]. intros auth s1 _.
    destruct (negb auth); [done |].
    apply frame_bind; [apply setup_directories_outside |]. intros _ s2 _.
    apply frame_bind; [done |]. intros _ s3 _.
    apply frame_bind; [by apply fetch_loop_outside |]. done. }
  unfold outside_view in Hview. by injection Hview as -> -> ->.
Qed.
End FileFrame.

(** A file that is no CSV file of a symbol survives a full run. *)
Lemma fetch_and_save_data_outside_witness :
  file_at (ZerodhaBacktestingWorkflow.fetch_and_save_data cfg_abc env_ok 30
             (state_of loaded_manager fs_a)).2 "notes.txt" = Some [["B"]] /\
  self (ZerodhaBacktestingWorkflow.fetch_and_save_data cfg_abc env_ok 30
          (state_of loaded_manager fs_a)).2 = loaded_manager.
Proof.
  destruct (fetch_and_save_data_outside cfg_abc env_ok "notes.txt" 30
              (state_of loaded_manager fs_a)) as (Hself & _ & Hfile).
  - compute_done.
  - split; [| exact Hself]. rewrite Hfile. vm_compute. reflexivity.
Defined.

(** ** The entry points *)

Section EntryPoints.
Context `{PyFloat} (cfg : Config) (env : Env).

(** X14. Without a credential file [fetch_data] stops at the guard: it
    returns normally, the manager it constructed is unauthenticated whatever
    the state of an earlier manager, and no network call is issued and
    nothing is written. *)
Theorem fetch_data_without_credential (s : State) :
  token_file (fs s) = None ->
  exists s', fetch_data cfg env s = (Ret tt, s') /\
             authenticated (self s') = false /\
             fs s' = fs s /\ trace s' = trace s.
Proof.
  intros Hfile.
  unfold fetch_data, ZerodhaBacktestingWorkflow.__init__,
    AuthenticationManager.__init__, AuthenticationManager.load_existing_token,
    AuthenticationManager.is_authenticated.
  unfold_monad. cbn [fs self]. rewrite Hfile. cbn. eauto 10.
Qed.

(** A successful exchange leaves a string token in the credential file. *)
Lemma authenticate_with_token_success (request_token : string) (s s1 : State) :
  AuthenticationManager.authenticate_with_token cfg env request_token s = (Ret true, s1) ->
  exists text, token_file (fs s1) = Some text /\
               fault env CallSetAccessToken = None /\
               data_dir (fs s1) = data_dir (fs s).
Proof.
  unfold AuthenticationManager.authenticate_with_token,
    AuthenticationManager.open_token_file_w, AuthenticationManager.write_token_file,
    AuthenticationManager.kite_set_access_token,
    AuthenticationManager.set_access_token_attr,
    AuthenticationManager.set_authenticated.
  intros Hrun. run; eauto.
Qed.

(** A manager constructed over a readable credential file is authenticated. *)
Lemma init_with_token (text : string) (s : State) :
  token_file (fs s) = Some text ->
  fault env (CallOpenRead (TOKEN_FILE cfg)) = None ->
  fault env (CallRead (TOKEN_FILE cfg)) = None ->
  fault env CallSetAccessToken = None ->
  exists s', AuthenticationManager.__init__ cfg env s = (Ret tt, s') /\
             authenticated (self s') = true /\
             fs s' = fs s /\ trace s' = trace s /\
             stdout s' = (stdout s ++ [MsgLoadedToken])%list.
Proof.
  intros Hfile Hopen Hread Hset.
  unfold AuthenticationManager.__init__, AuthenticationManager.load_existing_token,
    AuthenticationManager.kite_set_access_token,
    AuthenticationManager.set_access_token_attr,
    AuthenticationManager.set_authenticated.
  unfold_monad. cbn [fs self]. rewrite Hfile, Hopen, Hread. cbn.
  rewrite Hset. cbn. eauto 10.
Qed.

(** X15. The two steps of the workflow compose through the credential
    file: when [authenticate_with_kite] with a request token has left the
    manager authenticated, a later [fetch_data], which constructs a manager
    of its own, finds the token, passes the guard and visits every
    configured symbol, provided the credential file can be read and the
    storage directory exists or can be created. *)
Theorem authenticate_then_fetch (request_token : string) (s s1 : State) :
  request_token <> "" ->
  authenticate_with_kite cfg env (Some request_token) s = (Ret tt, s1) ->
  authenticated (self s1) = true ->
  fault env (CallOpenRead (TOKEN_FILE cfg)) = None ->
  fault env (CallRead (TOKEN_FILE cfg)) = None ->
  (data_dir (fs s1) = None -> fault env (CallMakedirs (DATA_DIR cfg)) = None) ->
  exists s2,
    fetch_data cfg env s1 = (Ret tt, s2) /\
    fetched_symbols (stdout s2) = (fetched_symbols (stdout s1) ++ STOCKS cfg)%list /\
    reported_counts (stdout s2)
    = (reported_counts (stdout s1) ++
       [(length (filter (fun symbol => pair_succeeds cfg env 365 symbol = true)
                        (STOCKS cfg)),
         length (STOCKS cfg))])%list.
Proof.
  intros Hne Hrun Hauth Hopen Hread Hmk.
  assert (exists text, token_file (fs s1) = Some text /\
                       fault env CallSetAccessToken = None)
    as (text & Hfile & Hset).
  { revert Hrun. unfold authenticate_with_kite, ZerodhaBacktestingWorkflow.__init__,
      ZerodhaBacktestingWorkflow.authenticate.
    destruct request_token as [| c r]; [done |].
    unfold bind at 1. destruct (init_returns cfg env s) as (s0 & ->).
    unfold bind at 1.
    destruct (authenticate_with_token_returns cfg env (String c r) s0)
      as (b & s1' & Hex & Hflag).
    rewrite Hex. unfold ret. intros [= <-]. rewrite Hauth in Hflag. subst b.
    destruct (authenticate_with_token_success _ _ _ Hex) as (text & ? & ? & _).
    eauto. }
  destruct (init_with_token text s1 Hfile Hopen Hread Hset)
    as (s1a & Hinit & Hauth' & Hfs & Htrace & Hout).
  destruct (fetch_and_save_data_run cfg env 365 s1a Hauth')
    as (s2 & Hfetch & _ & Hsym & _ & Hcount).
  { by rewrite Hfs. }
  rewrite (window_ok_back env 365) in Hsym by lia.
  exists s2. split.
  - unfold fetch_data, ZerodhaBacktestingWorkflow.__init__,
      AuthenticationManager.is_authenticated.
    unfold bind at 1. rewrite Hinit. unfold bind at 1. unfold bind at 1.
    unfold get_self, ret at 1. rewrite Hauth'. cbn [negb].
    unfold bind. rewrite Hfetch. reflexivity.
  - rewrite Hsym, Hcount, Hout. unfold fetched_symbols, reported_counts.
    rewrite !omap_app. cbn [omap]. by rewrite !app_nil_r.
Qed.
End EntryPoints.

(** Authentication in one process, the download in the next. *)
Lemma authenticate_then_fetch_witness :
  exists s2,
    fetch_data cfg_source env_ok
      (authenticate_with_kite cfg_source env_ok (Some "request-token")
         (state_of blank_manager fs_empty)).2 = (Ret tt, s2) /\
    reported_counts (stdout s2) = [(10%nat, 10%nat)].
Proof.
  destruct (authenticate_then_fetch cfg_source env_ok "request-token"
              (state_of blank_manager fs_empty)
              (authenticate_with_kite cfg_source env_ok (Some "request-token")
                 (state_of blank_manager fs_empty)).2)
    as (s2 & Hrun & _ & Hcount).
  - discriminate.
  - apply run_eq. vm_compute. reflexivity.
  - vm_compute. reflexivity.
  - reflexivity.
  - reflexivity.
  - intros _. reflexivity.
  - exists s2. split; [exact Hrun |]. rewrite Hcount. vm_compute. reflexivity.
Defined.

(** A manager that was authenticated, no credential file: the new manager
    is not. *)
Lemma fetch_data_without_credential_witness :
  exists s', fetch_data cfg_source env_ok (state_of loaded_manager fs_empty)
             = (Ret tt, s') /\
             authenticated (self s') = false /\
             fs s' = fs_empty /\ trace s' = [].
Proof.
  apply (fetch_data_without_credential cfg_source env_ok
           (state_of loaded_manager fs_empty)).
  reflexivity.
Defined.

(** ** The analysis of a symbol *)

Section AnalysisReport.
Context `{PyFloat} (cfg : Config) (env : Env).

(** The order of the floats is irreflexive and transitive; it need not be
    total. *)
Hypothesis float_ltb_irrefl : forall x : float, float_ltb x x = false.
Hypothesis float_ltb_trans : forall x y z : float,
  float_ltb x y = true -> float_ltb y z = true -> float_ltb x z = true.

Lemma min_fold_spec (rest : list float) (cur : float) :
  let m := foldl (fun cur y => if float_ltb y cur then y else cur) cur rest in
  (forall z, float_ltb z cur = false -> float_ltb z m = false) /\
  (forall y, y ∈ rest -> float_ltb y m = false) /\
  m ∈ cur :: rest.
Proof.
  revert cur. induction rest as [| y rest IH]; intros cur; cbn [foldl].
  - split; [done |]. split; [by intros ? ?%elem_of_nil | by left].
  - destruct (IH (if float_ltb y cur then y else cur)) as (Hmono & Hrest & Hin).
    assert (forall z, float_ltb z cur = false ->
                      float_ltb z (if float_ltb y cur then y else cur) = false)
      as Hstep.
    { intros z Hz. destruct (float_ltb y cur) eqn:Hy; [| done].
      destruct (float_ltb z y) eqn:Hzy; [| done].
      by rewrite (float_ltb_trans z y cur Hzy Hy) in Hz. }
    split; [by auto |]. split.
    + intros y' [-> | Hy']%elem_of_cons; [| by auto].
      apply Hmono. destruct (float_ltb y cur) eqn:Hy; [apply float_ltb_irrefl | done].
    + apply elem_of_cons in Hin as [-> | Hin].
      * destruct (float_ltb y cur); [right; by left | by left].
      * right. by right.
Qed.

Lemma max_fold_spec (rest : list float) (cur : float) :
  let m := foldl (fun cur y => if float_ltb cur y then y else cur) cur rest in
  (forall z, float_ltb cur z = false -> float_ltb m z = false) /\
  (forall y, y ∈ rest -> float_ltb m y = false) /\
  m ∈ cur :: rest.
Proof.
  revert cur. induction rest as [| y rest IH]; intros cur; cbn [foldl].
  - split; [done |]. split; [by intros ? ?%elem_of_nil | by left].
  - destruct (IH (if float_ltb cur y then y else cur)) as (Hmono & Hrest & Hin).
    assert (forall z, float_ltb cur z = false ->
                      float_ltb (if float_ltb cur y then y else cur) z = false)
      as Hstep.
    { intros z Hz. destruct (float_ltb cur y) eqn:Hy; [| done].
      destruct (float_ltb y z) eqn:Hyz; [| done].
      by rewrite (float_ltb_trans cur y z Hy Hyz) in Hz. }
    split; [by auto |]. split.
    + intros y' [-> | Hy']%elem_of_cons; [| by auto].
      apply Hmono. destruct (float_ltb cur y) eqn:Hy; [apply float_ltb_irrefl | done].
    + apply elem_of_cons in Hin as [-> | Hin].
      * destruct (float_ltb cur y); [right; by left | by left].
      * right. by right.
Qed.

(** X16. For a symbol whose file loads as a non-empty series,
    [analyze_data] prints one analysis: the number of records, a lowest and a
    highest close that are closes of the series with no close strictly below
    the lowest or strictly above the highest, and the close of the last
    record. *)
Theorem analyze_symbol_reports (symbol : string) (data : list candle) (s s1 : State) :
  ZerodhaBacktestingWorkflow.load_data cfg env symbol s = (Ret (Some data), s1) ->
  data <> [] ->
  exists lo hi cur s2,
    analyze_symbol cfg env symbol s = (Ret tt, s2) /\
    reported_analyses (stdout s2)
    = (reported_analyses (stdout s1) ++ [(symbol, length data, lo, hi, cur)])%list /\
    lo ∈ c_close <$> data /\ hi ∈ c_close <$> data /\
    last (c_close <$> data) = Some cur /\
    forall y, y ∈ c_close <$> data ->
              float_ltb y lo = false /\ float_ltb hi y = false.
Proof.
  intros Hload Hne. destruct data as [| c data]; [done |].
  unfold analyze_symbol. unfold bind at 1. rewrite Hload.
  cbn [truthy default from_option id fmap list_fmap].
  fold (fmap (M := list) c_close data).
  destruct (min_fold_spec (c_close <$> data) (c_close c)) as (Hmin1 & Hmin2 & Hmin3).
  destruct (max_fold_spec (c_close <$> data) (c_close c)) as (Hmax1 & Hmax2 & Hmax3).
  destruct (last (c_close c :: (c_close <$> data))) as [cur |] eqn:Hlast;
    [| by apply last_None in Hlast].
  unfold py_min, py_max, py_last, bind, or_raise, ret, print. rewrite Hlast.
  do 4 eexists. split; [reflexivity |]. cbn [stdout].
  split; [unfold reported_analyses; by rewrite omap_app |].
  split; [exact Hmin3 |]. split; [exact Hmax3 |]. split; [done |].
  intros y [-> | Hy]%elem_of_cons.
  - split; [apply Hmin1 | apply Hmax1]; apply float_ltb_irrefl.
  - split; [by apply Hmin2 | by apply Hmax2].
Qed.
End AnalysisReport.

(** The well-formed file of ITC: three records, closes 105, 118 and 92. *)
Lemma analyze_symbol_reports_witness :
  exists lo hi cur s2,
    analyze_symbol cfg_source env_ok "ITC" (state_of blank_manager fs_mixed)
    = (Ret tt, s2) /\
    lo ∈ c_close <$> (reread <$> three_candles) /\
    hi ∈ c_close <$> (reread <$> three_candles) /\
    last (c_close <$> (reread <$> three_candles)) = Some cur /\
    forall y, y ∈ c_close <$> (reread <$> three_candles) ->
              float_ltb y lo = false /\ float_ltb hi y = false.
Proof.
  destruct (analyze_symbol_reports cfg_source env_ok Z.ltb_irrefl
              (fun x y z Hxy Hyz =>
                 proj2 (Z.ltb_lt x z)
                   (Z.lt_trans x y z (proj1 (Z.ltb_lt x y) Hxy)
                      (proj1 (Z.ltb_lt y z) Hyz)))
              "ITC" (reread <$> three_candles)
              (state_of blank_manager fs_mixed)
              (ZerodhaBacktestingWorkflow.load_data cfg_source env_ok "ITC"
                 (state_of blank_manager fs_mixed)).2)
    as (lo & hi & cur & s2 & Hrun & _ & Hlo & Hhi & Hcur & Hbound).
  - apply run_eq. reflexivity.
  - discriminate.
  - exists lo, hi, cur, s2. repeat split; try assumption; by apply Hbound.
Defined.

(** ** Read-only entry points *)

Section ReadOnly.
Context `{PyFloat} (cfg : Config) (env : Env).

Lemma load_existing_token_world (s : State) :
  world_view (AuthenticationManager.load_existing_token cfg env s).2 = world_view s.
Proof.
  unfold AuthenticationManager.load_existing_token,
    AuthenticationManager.kite_set_access_token,
    AuthenticationManager.set_access_token_attr,
    AuthenticationManager.set_authenticated, world_view.
  run.
Qed.

Lemma init_world (s : State) :
  world_view (AuthenticationManager.__init__ cfg env s).2 = world_view s.
Proof.
  unfold AuthenticationManager.__init__.
  apply frame_bind; [done |]. intros _ s1 _.
  apply frame_bind; [apply load_existing_token_world | done].
Qed.

Lemma analyze_symbol_world (symbol : string) (s : State) :
  world_view (analyze_symbol cfg env symbol s).2 = world_view s.
Proof.
  unfold analyze_symbol, ZerodhaBacktestingWorkflow.load_data.
  apply frame_bind.
  - destruct (load_csv_returns cfg env symbol s) as (r & s1 & -> & Hfs & _ & Htrace).
    unfold world_view. cbn [snd]. by rewrite Hfs, Htrace.
  - intros data s1 _. destruct (truthy data); [| done].
    unfold py_min, py_max, py_last.
    destruct (c_close <$> default [] data) as [| x xs]; [done |].
    destruct (last (x :: xs)); done.
Qed.

Lemma analyze_loop_world (symbols : list string) (s : State) :
  world_view (analyze_loop cfg env symbols s).2 = world_view s.
Proof.
  revert s. induction symbols as [| symbol symbols IH]; intros s; [done |].
  cbn [analyze_loop]. apply frame_bind; [apply analyze_symbol_world |].
  intros _ s1 _. apply IH.
Qed.

(** X17. [analyze_data] is read-only: it leaves the file system, the
    credential file included, exactly as it was and issues no network call
    and no write, whatever the files hold and whatever fails. *)
Theorem analyze_data_reads_only (s : State) :
  fs (analyze_data cfg env s).2 = fs s /\
  trace (analyze_data cfg env s).2 = trace s.
Proof.
  assert (world_view (analyze_data cfg env s).2 = world_view s) as Hview.
  { unfold analyze_data, ZerodhaBacktestingWorkflow.__init__.
    apply frame_bind; [done |]. intros _ s1 _.
    apply frame_bind; [apply init_world |]. intros _ s2 _.
    apply analyze_loop_world. }
  unfold world_view in Hview. by injection Hview as -> ->.
Qed.
End ReadOnly.

(** ** Further concrete runs *)


(** No storage directory: the report says so and returns. *)
Lemma get_status_report_reads_only_witness :
  exists s',
    DataStorageManager.get_status_report cfg_source env_readonly
      (state_of loaded_manager fs_with_token) = (Ret tt, s') /\
    self s' = loaded_manager /\ fs s' = fs_with_token /\ trace s' = [].
Proof.
  destruct (get_status_report_reads_only cfg_source env_readonly
              (state_of loaded_manager fs_with_token))
    as (o & s' & Hrun & Hself & Hfs & Htrace & Hnodir).
  exists s'. rewrite (Hnodir eq_refl) in Hrun. by repeat split.
Defined.

(** ** A successful exchange *)

Section ExchangeEffects.
Context `{PyFloat} (cfg : Config) (env : Env).

Import AuthenticationManager.

(** X18. [authenticate_with_token] returns [True] exactly when the exchange
    answers with a dict whose [access_token] is a string and neither the
    installation on the client nor the opening and writing of the credential
    file fails.  It has then issued one exchange, with the request token and
    the API secret, stored and installed that string, set the flag, and
    replaced the content of the credential file by it; the storage directory
    is untouched. *)
Theorem authenticate_with_token_succeeds (request_token : string) (s : State) :
  (forall s', authenticate_with_token cfg env request_token s = (Ret true, s') ->
     exists data text,
       generate_session env request_token (API_SECRET cfg) = Ret data /\
       data !! "access_token" = Some (PyStr text) /\
       fault env CallSetAccessToken = None /\
       fault env (CallOpenWrite (TOKEN_FILE cfg)) = None /\
       fault env (CallWrite (TOKEN_FILE cfg) 0) = None) /\
  (forall data text,
     generate_session env request_token (API_SECRET cfg) = Ret data ->
     data !! "access_token" = Some (PyStr text) ->
     fault env CallSetAccessToken = None ->
     fault env (CallOpenWrite (TOKEN_FILE cfg)) = None ->
     fault env (CallWrite (TOKEN_FILE cfg) 0) = None ->
     exists s',
       authenticate_with_token cfg env request_token s = (Ret true, s') /\
       self s' = {| kite := {| api_key := api_key (kite (self s));
                               installed_token := PyStr text |};
                    access_token := PyStr text;
                    authenticated := true |} /\
       fs s' = {| token_file := Some text; data_dir := data_dir (fs s) |} /\
       trace s' = (trace s ++ [EvGenerateSession request_token (API_SECRET cfg);
                               EvOpenWrite (TOKEN_FILE cfg);
                               EvWrite (TOKEN_FILE cfg)])%list).
Proof.
  split.
  - unfold authenticate_with_token, open_token_file_w, write_token_file,
      kite_set_access_token, set_access_token_attr, set_authenticated.
    intros s' Hrun. run; eauto 10.
  - intros data text Hsession Htok Hset Hopen Hwrite.
    unfold authenticate_with_token, open_token_file_w, write_token_file,
      kite_set_access_token, set_access_token_attr, set_authenticated.
    unfold_monad. cbn [fs self trace]. rewrite Hsession. cbn. rewrite Htok. cbn.
    rewrite Hset. cbn. rewrite Hopen. cbn. rewrite Hwrite. cbn.
    eexists. split; [reflexivity |]. cbn. repeat split.
    by rewrite <- !app_assoc.
Qed.
End ExchangeEffects.

(** An exchange that succeeds over an older credential file. *)
Lemma authenticate_with_token_succeeds_witness :
  exists s',
    AuthenticationManager.authenticate_with_token cfg_source env_ok "request-token"
      (state_of blank_manager fs_with_token) = (Ret true, s') /\
    access_token (self s') = PyStr "token-for-request-token" /\
    token_file (fs s') = Some "token-for-request-token" /\
    trace s' = [EvGenerateSession "request-token" "kite-secret";
                EvOpenWrite "access_token.txt"; EvWrite "access_token.txt"].
Proof.
  destruct (authenticate_with_token_succeeds cfg_source env_ok "request-token"
              (state_of blank_manager fs_with_token)) as [_ Hsuccess].
  destruct (Hsuccess _ "token-for-request-token" eq_refl) as (s' & Hrun & Hself & Hfs & Htrace).
  - vm_compute. reflexivity.
  - reflexivity.
  - reflexivity.
  - reflexivity.
  - exists s'. split; [exact Hrun |]. rewrite Hself, Hfs, Htrace. by repeat split.
Defined.

(** ** The report after a save *)

Lemma endswith_csv_name (s : string) : endswith_csv (csv_name s) = true.
Proof.
  unfold csv_name. induction s as [| c r IH]; [reflexivity |].
  change (String.eqb (String c r +:+ ".csv") ".csv" || endswith_csv (r +:+ ".csv") = true).
  rewrite IH. apply orb_true_r.
Qed.

Lemma replace_csv_other (c : ascii) (r : string) :
  String.prefix ".csv" (String c r) = false ->
  replace_csv (String c r) = String c (replace_csv r).
Proof.
  destruct c as [[] [] [] [] [] [] [] []]; try reflexivity.
  destruct r as [| c1 r1]; [reflexivity |].
  destruct c1 as [[] [] [] [] [] [] [] []]; try reflexivity.
  destruct r1 as [| c2 r2]; [reflexivity |].
  destruct c2 as [[] [] [] [] [] [] [] []]; try reflexivity.
  destruct r2 as [| c3 r3]; [reflexivity |].
  destruct c3 as [[] [] [] [] [] [] [] []]; try reflexivity.
  intros Hprefix. destruct r3; vm_compute in Hprefix; discriminate.
Qed.

Lemma prefix_csv_inv (s : string) :
  String.prefix ".csv" s = true -> exists r, s = ".csv" +:+ r.
Proof.
  destruct s as [| c0 [| c1 [| c2 [| c3 r]]]]; cbn [String.prefix]; try discriminate;
    repeat (destruct (ascii_dec _ _) as [<- |]; try discriminate).
  intros _. by exists r.
Qed.

Lemma prefix_csv_name (c : ascii) (r : string) :
  String.prefix ".csv" (String c r) = false ->
  String.prefix ".csv" (String c (r +:+ ".csv")) = false.
Proof.
  intros Hno.
  destruct (String.prefix ".csv" (String c (r +:+ ".csv"))) eqn:Hprefix; [| done].
  apply prefix_csv_inv in Hprefix as [r' Heq].
  destruct r as [| c1 [| c2 [| c3 r]]]; try discriminate Heq.
  injection Heq as -> -> -> -> _.
  destruct r; vm_compute in Hno; discriminate.
Qed.

Lemma replace_csv_length (n : nat) (s : string) :
  (String.length s <= n)%nat ->
  (String.length (replace_csv s) <= String.length s)%nat.
Proof.
  revert s. induction n as [| n IH]; intros [| c r] Hlen; cbn in Hlen; try lia.
  - cbn. lia.
  - cbn. lia.
  - destruct (String.prefix ".csv" (String c r)) eqn:Hprefix.
    + apply prefix_csv_inv in Hprefix as [r' Heq].
      change (".csv" +:+ r')
        with (String "." (String "c" (String "s" (String "v" r')))) in Heq.
      injection Heq as -> ->.
      change (replace_csv (String "." (String "c" (String "s" (String "v" r')))))
        with (replace_csv r').
      cbn [String.length] in Hlen |- *.
      specialize (IH r' ltac:(lia)). lia.
    + rewrite replace_csv_other by done.
      specialize (IH r ltac:(lia)). cbn. lia.
Qed.

Lemma replace_csv_name (s : string) :
  replace_csv s = s -> replace_csv (csv_name s) = s.
Proof.
  unfold csv_name. induction s as [| c r IH]; [reflexivity |].
  destruct (String.prefix ".csv" (String c r)) eqn:Hprefix.
  - apply prefix_csv_inv in Hprefix as [r' Heq].
    change (".csv" +:+ r')
      with (String "." (String "c" (String "s" (String "v" r')))) in Heq.
    rewrite Heq.
    change (replace_csv (String "." (String "c" (String "s" (String "v" r')))))
      with (replace_csv r').
    intros Hfix. apply (f_equal String.length) in Hfix.
    pose proof (replace_csv_length _ r' (le_n _)) as Hle.
    cbn [String.length] in Hfix. lia.
  - rewrite replace_csv_other by done. intros [= Hr].
    change (String c r +:+ ".csv") with (String c (r +:+ ".csv")).
    rewrite replace_csv_other by by apply prefix_csv_name.
    by rewrite IH.
Qed.

Section StatusAfterSave.
Context `{PyFloat} (cfg : Config) (env : Env).

Import MarketDataFetcher DataStorageManager.

Lemma report_files_prints (d : gmap string csv_file) (names : list string)
                          (s : State) :
  exists o s' out, report_files cfg env d names s = (o, s') /\
                   stdout s' = (stdout s ++ out)%list /\
                   reported_missing out = [].
Proof.
  revert s. induction names as [| name names IH]; intros s; cbn [report_files].
  - unfold ret. exists (Ret tt), s, []. by rewrite app_nil_r.
  - unfold bind at 1. unfold attempt at 1.
    destruct (fault env (CallGetsize _));
      [unfold raise; do 2 eexists; exists []; by rewrite app_nil_r |].
    unfold ret at 1. unfold bind at 1. unfold attempt at 1.
    destruct (fault env (CallOpenRead _));
      [unfold raise; do 2 eexists; exists []; by rewrite app_nil_r |].
    unfold ret at 1. unfold bind at 1. unfold attempt at 1.
    destruct (fault env (CallRead _));
      [unfold raise; do 2 eexists; exists []; by rewrite app_nil_r |].
    unfold ret at 1. unfold bind at 1. unfold print at 1.
    match goal with |- context [report_files cfg env d names ?st] =>
      destruct (IH st) as (o & s' & out & -> & Hout & Hnone) end.
    cbn [stdout] in Hout. do 2 eexists. eexists (_ :: out).
    split; [reflexivity |]. split; [by rewrite Hout, <- app_assoc |].
    exact Hnone.
Qed.

Lemma present_not_missing (symbol : string) (d : gmap string csv_file) :
  replace_csv symbol = symbol ->
  is_Some (d !! csv_name symbol) ->
  symbol ∉ sorted (elements (missing cfg
             (filter (fun f => endswith_csv f = true) (map_to_list d).*1))).
Proof.
  intros Hplain [tbl Hfile]. unfold sorted.
  rewrite merge_sort_Permutation, elem_of_elements. unfold missing.
  rewrite elem_of_difference, !elem_of_list_to_set.
  intros [_ Hnot]. apply Hnot.
  apply list_elem_of_fmap. exists (csv_name symbol).
  split; [by rewrite replace_csv_name |].
  apply list_elem_of_filter. split; [apply endswith_csv_name |].
  apply list_elem_of_fmap. exists (csv_name symbol, tbl).
  split; [done |]. by apply elem_of_map_to_list.
Qed.

(** X19. A symbol whose file [save_data_to_csv] has just written is not
    reported missing: when the symbol holds no [.csv] of its own, whatever
    else is in the storage directory and whatever the environment does to the
    report, no list of missing symbols that [get_status_report] prints after
    the save names it. *)
Theorem saved_symbol_not_missing (symbol : string) (data : option (list candle))
                                 (s s1 : State) :
  replace_csv symbol = symbol ->
  save_data_to_csv cfg env symbol data s = (Ret true, s1) ->
  exists o s2 out,
    get_status_report cfg env s1 = (o, s2) /\
    stdout s2 = (stdout s1 ++ out)%list /\
    forall l, l ∈ reported_missing out -> symbol ∉ l.
Proof.
  intros Hplain Hsave.
  destruct (save_data_to_csv_returns cfg env symbol data s)
    as (b & s' & Hrun & _ & _ & Hfile).
  rewrite Hsave in Hrun. injection Hrun as <- <-.
  destruct (Hfile eq_refl) as (d & Hdir & Hlookup).
  unfold get_status_report. unfold bind at 1. unfold print at 1.
  unfold bind at 1. unfold get_fs at 1. cbn [fs]. rewrite Hdir.
  unfold bind at 1. unfold attempt at 1.
  destruct (fault env (CallListdir _)).
  { unfold raise. do 2 eexists. exists [MsgStatusHeader].
    split; [reflexivity |]. split; [reflexivity |]. cbn. by intros l ?%elem_of_nil. }
  unfold ret at 1. unfold bind at 1. unfold print at 1. unfold bind at 1.
  match goal with |- context [report_files cfg env d ?l ?st] =>
    destruct (report_files_prints d l st) as (o & s' & out & -> & Hout & Hnone) end.
  cbn [stdout] in Hout.
  rewrite <- !app_assoc in Hout.
  destruct o as [[] | e].
  2: { do 3 eexists. split; [reflexivity |]. split; [exact Hout |].
       unfold reported_missing in Hnone |- *. cbn. rewrite Hnone.
       by intros l ?%elem_of_nil. }
  destruct (decide _); unfold print; do 3 eexists.
  - split; [reflexivity |]. cbn [stdout].
    split; [rewrite Hout, <- !app_assoc; reflexivity |].
    cbn. unfold reported_missing in Hnone |- *. rewrite omap_app, Hnone. cbn.
    intros l ->%list_elem_of_singleton.
    apply present_not_missing; [done | by rewrite Hlookup].
  - split; [reflexivity |]. cbn [stdout].
    split; [rewrite Hout, <- !app_assoc; reflexivity |].
    cbn. unfold reported_missing in Hnone |- *. rewrite omap_app, Hnone. cbn.
    by intros l ?%elem_of_nil.
Qed.
End StatusAfterSave.

(** A series saved next to an unrelated file, then the report. *)
Lemma saved_symbol_not_missing_witness :
  exists o s2 out,
    DataStorageManager.get_status_report cfg_source env_ok
      (MarketDataFetcher.save_data_to_csv cfg_source env_ok "TCS" (Some three_candles)
         (state_of loaded_manager fs_a)).2 = (o, s2) /\
    stdout s2
    = (stdout (MarketDataFetcher.save_data_to_csv cfg_source env_ok "TCS"
                 (Some three_candles) (state_of loaded_manager fs_a)).2 ++ out)%list /\
    forall l, l ∈ reported_missing out -> "TCS" ∉ l.
Proof.
  apply (saved_symbol_not_missing cfg_source env_ok "TCS" (Some three_candles)
           (state_of loaded_manager fs_a)).
  - reflexivity.
  - apply run_eq. vm_compute. reflexivity.
Defined.

(** ** What a file loads as *)

Section LoadCharacterised.
Context `{PyFloat} (cfg : Config) (env : Env).

Import DataStorageManager.



End LoadCharacterised.

